(** * The order composer of the CRM dashboard page

    A shallow embedding of the order helpers of the [Home] component
    (the single page of the application): [toggleItemInOrder],
    [updateItemQty], [createOrder], [updateOrderStatus], [createItem] and
    the totals computed while the orders are rendered.

    JavaScript values are modelled as the page uses them:
    - a String is the list of its UTF-16 code units;
    - a Number is an IEEE 754 binary64 value, that is a primitive [float];
    - a field that may be absent ([undefined] or [null]) is an [option];
    - the React state of the component is a record, and each handler maps
      the state of the render it was created in to the next state. *)

From Stdlib Require Import ZArith NArith List Bool Floats String Ascii Lia.
Import ListNotations.

Open Scope Z_scope.

(** ** The ECMAScript built-ins used by the page *)

Module JS.

(** *** Strings *)

Definition code_unit := N.
Definition jsstring := list code_unit.

(** A string literal of the source (ASCII only), as code units. *)
Definition lit (s : string) : jsstring :=
  map N_of_ascii (list_ascii_of_string s).
Arguments lit s%_string.

(** [a === b] on two Strings. *)
Fixpoint strictEq (a b : jsstring) : bool :=
  match a, b with
  | [], [] => true
  | x :: a', y :: b' => N.eqb x y && strictEq a' b'
  | _, _ => false
  end.

(** ToBoolean on a String: only the empty string is falsy. *)
Definition truthyString (s : jsstring) : bool :=
  match s with [] => false | _ :: _ => true end.

(** WhiteSpace and LineTerminator code points, the set stripped by
    [String.prototype.trim] and skipped by [parseInt]. *)
Definition isWhiteSpace (c : code_unit) : bool :=
  let c := Z.of_N c in
  (9 <=? c) && (c <=? 13)
  || (c =? 32) || (c =? 160) || (c =? 5760)
  || (8192 <=? c) && (c <=? 8202)
  || (c =? 8232) || (c =? 8233) || (c =? 8239) || (c =? 8287)
  || (c =? 12288) || (c =? 65279).

Fixpoint trimStart (s : jsstring) : jsstring :=
  match s with
  | [] => []
  | c :: r => if isWhiteSpace c then trimStart r else s
  end.

Definition trimEnd (s : jsstring) : jsstring := rev (trimStart (rev s)).

Definition trim (s : jsstring) : jsstring := trimEnd (trimStart s).

(** *** Numbers *)

Definition number := float.

(** ToBoolean on a Number: [+0], [-0] and [NaN] are falsy. *)
Definition ToBoolean (x : number) : bool := negb (is_zero x || is_nan x).

(** [x || d] when both operands are Numbers. *)
Definition orElse (x d : number) : number := if ToBoolean x then x else d.

(** [v || d] when [v] is a Number or absent. *)
Definition orDefault (v : option number) (d : number) : number :=
  match v with
  | Some x => orElse x d
  | None => d
  end.

(** The Number value for a mathematical integer: the nearest binary64
    value, ties to even, infinite past the largest finite one. *)
Definition ofInteger (z : Z) : number :=
  SF2Prim (binary_normalize prec emax z 0 false).

(** The mathematical value of a finite Number as a fraction
    [(numerator, denominator)] with a positive denominator. *)
Definition mathValue (m : positive) (e : Z) : Z * Z :=
  if 0 <=? e then (Zpos m * 2 ^ e, 1) else (Zpos m, 2 ^ (- e)).

(** *** parseInt(string) with the radix left out *)

Definition digitValue (c : code_unit) : option Z :=
  let c := Z.of_N c in
  if (48 <=? c) && (c <=? 57) then Some (c - 48)
  else if (97 <=? c) && (c <=? 122) then Some (c - 87)
  else if (65 <=? c) && (c <=? 90) then Some (c - 55)
  else None.

Definition radixDigit (R : Z) (c : code_unit) : option Z :=
  match digitValue c with
  | Some d => if d <? R then Some d else None
  | None => None
  end.

(** The digits of the longest prefix made of radix-[R] digits. *)
Fixpoint digitsPrefix (R : Z) (s : jsstring) : list Z :=
  match s with
  | [] => []
  | c :: r =>
      match radixDigit R c with
      | Some d => d :: digitsPrefix R r
      | None => []
      end
  end.

Definition mathInt (R : Z) (ds : list Z) : Z :=
  fold_left (fun acc d => acc * R + d) ds 0.

(** Leading white space is skipped, one sign is read, a [0x] or [0X]
    prefix selects radix 16, the longest digit prefix is converted, and
    no digit at all gives [NaN].  An integer too large for a binary64
    value is rounded to the nearest one. *)
Definition parseInt (input : jsstring) : number :=
  let s := trimStart input in
  let '(negative, s) :=
    match s with
    | c :: r =>
        if N.eqb c 45 then (true, r)
        else if N.eqb c 43 then (false, r)
        else (false, s)
    | [] => (false, s)
    end in
  let '(R, s) :=
    match s with
    | c0 :: c1 :: r =>
        if N.eqb c0 48 && (N.eqb c1 120 || N.eqb c1 88) then (16, r)
        else (10, s)
    | _ => (10, s)
    end in
  match digitsPrefix R s with
  | [] => nan
  | ds =>
      let n := mathInt R ds in
      if n =? 0 then (if negative then (-0)%float else 0%float)
      else ofInteger (if negative then - n else n)
  end.

(** *** parseFloat applied to a Number

    The argument is first converted to a String and that String is
    parsed back.  Number::toString prints digits that identify the
    value, so the value comes back unchanged, except that [-0] prints
    as ["0"] and comes back as [+0]. *)
Definition parseFloat (x : number) : number :=
  if is_zero x then 0%float else x.

(** *** Decimal digits of integers *)

Fixpoint digitsLoop (fuel : nat) (n : Z) (acc : jsstring) : jsstring :=
  match fuel with
  | O => acc
  | S fuel' =>
      let acc' := Z.to_N (48 + n mod 10) :: acc in
      if n / 10 =? 0 then acc' else digitsLoop fuel' (n / 10) acc'
  end.

(** The decimal representation of a non-negative integer, ["0"] for 0. *)
Definition decimalDigits (n : Z) : jsstring :=
  digitsLoop (S (Z.to_nat (Z.log2 n))) n [].

(** Number::toString on an integral Number below [10^21] in absolute
    value, such as a time value: its decimal digits, after a minus sign
    when it is negative. *)
Definition integerToString (z : Z) : jsstring :=
  if z <? 0 then 45%N :: decimalDigits (- z) else decimalDigits z.

(** *** Completions *)

Inductive error := TypeError | RangeError.

Inductive completion (A : Type) :=
| Normal (a : A)
| Throw (e : error).
Arguments Normal {A} a.
Arguments Throw {A} e.

Definition bind {A B} (c : completion A) (k : A -> completion B)
  : completion B :=
  match c with
  | Normal a => k a
  | Throw e => Throw e
  end.

(** *** Number.prototype.toFixed *)

(** The integer [n] for which [n / 10^f] is closest to the fraction
    [num / den]; of two equally close ones, the larger. *)
Definition nearestScaled (f : Z) (v : Z * Z) : Z :=
  let '(num, den) := v in
  (2 * num * 10 ^ f + den) / (2 * den).

(** The digits of [n] with a point before the last [f] of them, padded
    with zeros on the left up to [f + 1] digits. *)
Definition placePoint (f : Z) (n : Z) : jsstring :=
  let m := decimalDigits n in
  if f =? 0 then m
  else
    let k := Z.of_nat (List.length m) in
    let m := if k <=? f then repeat 48%N (Z.to_nat (f + 1 - k)) ++ m else m in
    let k := Z.to_nat (Z.of_nat (List.length m) - f) in
    firstn k m ++ lit "." ++ skipn k m.

Section ToFixed.

(** Number::toString on a finite Number of magnitude at least
    [10^21]: exponential notation with the shortest digits that read
    back as the same value.  The last digit is left to the engine, so
    the function is kept as a parameter. *)
Variable exponentialToString : number -> jsstring.

Definition toFixed (x : number) (fractionDigits : Z)
  : completion jsstring :=
  if (fractionDigits <? 0) || (100 <? fractionDigits) then Throw RangeError
  else
    match Prim2SF x with
    | S754_nan => Normal (lit "NaN")
    | S754_infinity s =>
        Normal (if s then lit "-Infinity" else lit "Infinity")
    | S754_zero _ => Normal (placePoint fractionDigits 0)
    | S754_finite s m e =>
        let sign := if s then lit "-" else [] in
        let '(num, den) := mathValue m e in
        if 10 ^ 21 * den <=? num
        then Normal (sign ++ exponentialToString (abs x))
        else Normal (sign ++ placePoint fractionDigits
                               (nearestScaled fractionDigits (num, den)))
    end.

End ToFixed.

Arguments toFixed exponentialToString x%_float fractionDigits%_Z.

End JS.

(** ** The page component *)

Module Customer.
Record t := {
  _id : JS.jsstring;
  name : JS.jsstring;
  email : JS.jsstring;
  phone : JS.jsstring;
  address : JS.jsstring
}.
End Customer.

(** A catalog item as the server returns it; the prices are decimal
    amounts, [None] when the field is absent. *)
Module Item.
Record t := {
  _id : JS.jsstring;
  itemId : JS.jsstring;
  name : JS.jsstring;
  price : option JS.number;
  cost : option JS.number;
  photo : JS.jsstring
}.
End Item.

(** One entry of [orderItems], and of the [items] of a stored order.
    [quantity] and [price] are Numbers when present: the toggle writes
    the Number 1 and copies the item's price, the quantity update writes
    the result of [parseInt]; [None] stands for an absent field. *)
Module OrderLine.
Record t := {
  itemMongoId : JS.jsstring;
  quantity : option JS.number;
  price : option JS.number
}.
End OrderLine.

Module Order.
Record t := {
  _id : JS.jsstring;
  orderId : JS.jsstring;
  customerId : JS.jsstring;
  status : JS.jsstring;
  items : option (list OrderLine.t)
}.
End Order.

Module CustomerForm.
Record t := {
  name : JS.jsstring;
  email : JS.jsstring;
  phone : JS.jsstring;
  address : JS.jsstring
}.
End CustomerForm.

Module ItemForm.
Record t := {
  name : JS.jsstring;
  price : JS.jsstring;
  cost : JS.jsstring;
  photo : JS.jsstring;
  itemId : JS.jsstring
}.
End ItemForm.

Module OrderForm.
Record t := {
  customerId : JS.jsstring;
  orderId : JS.jsstring;
  status : JS.jsstring
}.
End OrderForm.

Module Home.
Import JS.

(** The state cells of the component that the handlers below read or
    write. *)
Record State := {
  token : jsstring;
  customers : list Customer.t;
  items : list Item.t;
  orders : list Order.t;
  customerForm : CustomerForm.t;
  itemForm : ItemForm.t;
  orderForm : OrderForm.t;
  orderItems : list OrderLine.t
}.

Definition setItems (v : list Item.t) (st : State) : State :=
  {| token := token st; customers := customers st; items := v;
     orders := orders st; customerForm := customerForm st;
     itemForm := itemForm st; orderForm := orderForm st;
     orderItems := orderItems st |}.

Definition setOrders (v : list Order.t) (st : State) : State :=
  {| token := token st; customers := customers st; items := items st;
     orders := v; customerForm := customerForm st;
     itemForm := itemForm st; orderForm := orderForm st;
     orderItems := orderItems st |}.

Definition setItemForm (v : ItemForm.t) (st : State) : State :=
  {| token := token st; customers := customers st; items := items st;
     orders := orders st; customerForm := customerForm st;
     itemForm := v; orderForm := orderForm st;
     orderItems := orderItems st |}.

Definition setOrderForm (v : OrderForm.t) (st : State) : State :=
  {| token := token st; customers := customers st; items := items st;
     orders := orders st; customerForm := customerForm st;
     itemForm := itemForm st; orderForm := v;
     orderItems := orderItems st |}.

Definition setOrderItems (v : list OrderLine.t) (st : State) : State :=
  {| token := token st; customers := customers st; items := items st;
     orders := orders st; customerForm := customerForm st;
     itemForm := itemForm st; orderForm := orderForm st;
     orderItems := v |}.

(** What a handler hands to [fetch].  The body is kept as the object
    given to [JSON.stringify]. *)
Inductive body :=
| ItemBody (form : ItemForm.t)
| OrderBody (customerId orderId status : jsstring)
            (items : list OrderLine.t)
| StatusBody (status : jsstring).

Record request := {
  method : jsstring;
  url : jsstring;
  bearer : jsstring;
  payload : body
}.

(** The code sent for a new record,
    [id && id.trim() !== '' ? id : prefix + Date.now()]: the identifier
    typed in the form, or, when that is empty or white space only, the
    prefix followed by the current time in milliseconds.  [createItem]
    writes this expression with [ITEM_] and [createOrder] with [ORD_]. *)
Definition generateCode (prefix supplied : jsstring) (now : Z)
  : jsstring :=
  if truthyString supplied && negb (strictEq (trim supplied) [])
  then supplied
  else prefix ++ integerToString now.

(** [response] is the document the server answers with, [None] when
    [fetch] or [res.json()] rejects and the handler stops there. *)
Definition createItem (now : Z) (response : option Item.t) (st : State)
  : State * list request :=
  let itemId := generateCode (lit "ITEM_") (ItemForm.itemId (itemForm st)) now in
  let body :=
    {| ItemForm.name := ItemForm.name (itemForm st);
       ItemForm.price := ItemForm.price (itemForm st);
       ItemForm.cost := ItemForm.cost (itemForm st);
       ItemForm.photo := ItemForm.photo (itemForm st);
       ItemForm.itemId := itemId |} in
  let req := {| method := lit "POST"; url := lit "/api/items";
                bearer := token st; payload := ItemBody body |} in
  match response with
  | None => (st, [req])
  | Some data =>
      (setItemForm
         {| ItemForm.name := []; ItemForm.price := []; ItemForm.cost := [];
            ItemForm.photo := []; ItemForm.itemId := [] |}
         (setItems (data :: items st) st),
       [req])
  end.

Definition toggleItemInOrder (item : Item.t) (st : State) : State :=
  let existing :=
    find (fun i => strictEq (OrderLine.itemMongoId i) (Item._id item))
         (orderItems st) in
  match existing with
  | Some _ =>
      setOrderItems
        (filter (fun i => negb (strictEq (OrderLine.itemMongoId i)
                                         (Item._id item)))
                (orderItems st))
        st
  | None =>
      setOrderItems
        (orderItems st ++
           [ {| OrderLine.itemMongoId := Item._id item;
                OrderLine.quantity := Some 1%float;
                OrderLine.price := Item.price item |} ])
        st
  end.

Definition updateItemQty (id qty : jsstring) (st : State) : State :=
  setOrderItems
    (map (fun i =>
            if strictEq (OrderLine.itemMongoId i) id
            then {| OrderLine.itemMongoId := OrderLine.itemMongoId i;
                    OrderLine.quantity := Some (orElse (parseInt qty) 1%float);
                    OrderLine.price := OrderLine.price i |}
            else i)
         (orderItems st))
    st.

Definition createOrder (now : Z) (response : option Order.t) (st : State)
  : State * list request :=
  if negb (truthyString (OrderForm.customerId (orderForm st)))
     || (List.length (orderItems st) =? 0)%nat
  then (st, [])
  else
    let orderId :=
      generateCode (lit "ORD_") (OrderForm.orderId (orderForm st)) now in
    let body :=
      OrderBody (OrderForm.customerId (orderForm st)) orderId
                (OrderForm.status (orderForm st)) (orderItems st) in
    let req := {| method := lit "POST"; url := lit "/api/orders";
                  bearer := token st; payload := body |} in
    match response with
    | None => (st, [req])
    | Some data =>
        (setOrderItems []
           (setOrderForm
              {| OrderForm.customerId := []; OrderForm.orderId := [];
                 OrderForm.status := lit "Pending" |}
              (setOrders (data :: orders st) st)),
         [req])
    end.

(** [delivered] tells whether the awaited [fetch] resolved; when it
    rejects the handler stops before [setOrders]. *)
Definition updateOrderStatus (orderId newStatus : jsstring)
           (delivered : bool) (st : State) : State * list request :=
  let req := {| method := lit "PATCH"; url := lit "/api/orders/" ++ orderId;
                bearer := token st; payload := StatusBody newStatus |} in
  if delivered then
    (setOrders
       (map (fun o =>
               if strictEq (Order._id o) orderId
               then {| Order._id := Order._id o;
                       Order.orderId := Order.orderId o;
                       Order.customerId := Order.customerId o;
                       Order.status := newStatus;
                       Order.items := Order.items o |}
               else o)
            (orders st))
       st,
     [req])
  else (st, [req]).

(** *** The totals shown on each order card *)

(** [o.items?.reduce((sum, i) => sum + (i.quantity || 1), 0) || 0] *)
Definition totalQty (items : option (list OrderLine.t)) : number :=
  orDefault
    (option_map
       (fun l =>
          fold_left
            (fun sum i => (sum + orDefault (OrderLine.quantity i) 1)%float)
            l 0%float)
       items)
    0%float.

Section Totals.

Variable exponentialToString : number -> jsstring.

(** [o.items?.reduce((sum, i) =>
       sum + (i.quantity || 1) * parseFloat(i.price || 0), 0).toFixed(2)];
    [None] is [undefined], the value of the whole chain when
    [o.items] is absent. *)
Definition totalPrice (items : option (list OrderLine.t))
  : completion (option jsstring) :=
  match items with
  | None => Normal None
  | Some l =>
      bind
        (toFixed exponentialToString
           (fold_left
              (fun sum i =>
                 (sum + orDefault (OrderLine.quantity i) 1
                        * parseFloat (orDefault (OrderLine.price i) 0))%float)
              l 0%float)
           2)
        (fun s => Normal (Some s))
  end.

(** Both totals of one order card, in the order they are computed. *)
Definition computeTotals (items : option (list OrderLine.t))
  : completion (number * option jsstring) :=
  let q := totalQty items in
  bind (totalPrice items) (fun p => Normal (q, p)).

End Totals.

End Home.

Import JS Home.

(** ** Concrete data used in the examples below *)

Module Sample.

Definition line (id : jsstring) (q p : number) : OrderLine.t :=
  {| OrderLine.itemMongoId := id;
     OrderLine.quantity := Some q;
     OrderLine.price := Some p |}.
Arguments line id (q p)%_float.

Definition pen : Item.t :=
  {| Item._id := lit "a1"; Item.itemId := lit "PEN"; Item.name := lit "Pen";
     Item.price := Some 10%float; Item.cost := Some 4%float;
     Item.photo := [] |}.

Definition ink : Item.t :=
  {| Item._id := lit "b2"; Item.itemId := lit "INK"; Item.name := lit "Ink";
     Item.price := Some 5.5%float; Item.cost := Some 2%float;
     Item.photo := [] |}.

Definition order1 : Order.t :=
  {| Order._id := lit "o1"; Order.orderId := lit "ORD_1";
     Order.customerId := lit "c1"; Order.status := lit "Pending";
     Order.items := Some [line (lit "a1") 2 10] |}.

Definition order2 : Order.t :=
  {| Order._id := lit "o2"; Order.orderId := lit "ORD_2";
     Order.customerId := lit "c1"; Order.status := lit "Completed";
     Order.items := None |}.

(** A signed-in operator composing an order for customer [c1] with the
    given lines selected. *)
Definition composing (lines : list OrderLine.t) : State :=
  {| token := lit "t";
     customers := [];
     items := [pen; ink];
     orders := [order1; order2];
     customerForm :=
       {| CustomerForm.name := []; CustomerForm.email := [];
          CustomerForm.phone := []; CustomerForm.address := [] |};
     itemForm :=
       {| ItemForm.name := []; ItemForm.price := []; ItemForm.cost := [];
          ItemForm.photo := []; ItemForm.itemId := [] |};
     orderForm :=
       {| OrderForm.customerId := lit "c1"; OrderForm.orderId := [];
          OrderForm.status := lit "Pending" |};
     orderItems := lines |}.

(** A stand-in for the exponential printer of [toFixed]; no total in the
    examples is large enough to reach it. *)
Definition noExponent (x : number) : jsstring := [].

End Sample.

(** ** The totals as the specification words them *)

Module Spec.

(** The sum of a list of Numbers, added from left to right from 0. *)
Fixpoint sumFrom (acc : number) (xs : list number) : number :=
  match xs with
  | [] => acc
  | x :: r => sumFrom (acc + x)%float r
  end.

Definition sum (xs : list number) : number := sumFrom 0%float xs.

(** A line's quantity, a missing or falsy one counted as 1. *)
Definition quantityOf (l : OrderLine.t) : number :=
  match OrderLine.quantity l with
  | Some q => if ToBoolean q then q else 1%float
  | None => 1%float
  end.

(** A line's price, a missing or falsy one counted as 0. *)
Definition priceOf (l : OrderLine.t) : number :=
  match OrderLine.price l with
  | Some p => if ToBoolean p then p else 0%float
  | None => 0%float
  end.

Definition totalQuantity (lines : list OrderLine.t) : number :=
  sum (map quantityOf lines).

(** The sum of quantity times price, before rounding. *)
Definition totalAmount (lines : list OrderLine.t) : number :=
  sum (map (fun l => (quantityOf l * priceOf l)%float) lines).

(** The pair of totals of the specification: the quantity sum, and the
    amount rounded to two decimal places. *)
Definition totals (exponentialToString : number -> jsstring)
           (lines : list OrderLine.t)
  : completion (number * option jsstring) :=
  bind (toFixed exponentialToString (totalAmount lines) 2)
       (fun s => Normal (totalQuantity lines, Some s)).

End Spec.

(** ** Notions used in the statements *)

(** A string is blank when it is empty or made of white space only. *)
Definition blank (s : jsstring) : Prop :=
  Forall (fun c => isWhiteSpace c = true) s.

(** A decimal digit, as a code unit. *)
Definition isDigit (c : code_unit) : Prop := 48 <= Z.of_N c <= 57.

(** Every item reference occurs at most once among the lines. *)
Definition uniqueRefs (lines : list OrderLine.t) : Prop :=
  NoDup (map OrderLine.itemMongoId lines).

(** ** The rest of the page: the values the render derives, customer
    creation, the login handler and the data-loading effect *)

Module View.

(** [!!orderItems.find((i) => i.itemMongoId === it._id)], the state of
    an item's check box. *)
Definition checked (it : Item.t) (st : State) : bool :=
  match find (fun i => strictEq (OrderLine.itemMongoId i) (Item._id it))
             (orderItems st) with
  | Some _ => true
  | None => false
  end.

(** [orderItems.find((i) => i.itemMongoId === it._id)?.quantity || 1],
    the value of the quantity field of a selected item. *)
Definition shownQuantity (it : Item.t) (st : State) : number :=
  orDefault
    (match find (fun i => strictEq (OrderLine.itemMongoId i) (Item._id it))
                (orderItems st) with
     | Some i => OrderLine.quantity i
     | None => None
     end)
    1%float.

(** [customers.find((c) => c._id === o.customerId)?.name || o.customerId] *)
Definition customerLabel (o : Order.t) (st : State) : jsstring :=
  match find (fun c => strictEq (Customer._id c) (Order.customerId o))
             (customers st) with
  | Some c =>
      if truthyString (Customer.name c) then Customer.name c
      else Order.customerId o
  | None => Order.customerId o
  end.

(** [items.find((i) => i._id === it.itemMongoId)?.name || it.itemMongoId] *)
Definition itemLabel (l : OrderLine.t) (st : State) : jsstring :=
  match find (fun i => strictEq (Item._id i) (OrderLine.itemMongoId l))
             (items st) with
  | Some i =>
      if truthyString (Item.name i) then Item.name i
      else OrderLine.itemMongoId l
  | None => OrderLine.itemMongoId l
  end.

(** [o.items?.length > 0], whether a card lists its lines. *)
Definition showsBreakdown (o : Order.t) : bool :=
  match Order.items o with
  | Some l => (0 <? List.length l)%nat
  | None => false
  end.

(** The quantity field is rendered for a selected item only:
    [orderItems.find(...) && (<input value={...} />)]; [None] when no
    field is rendered. *)
Definition quantityField (it : Item.t) (st : State) : option number :=
  if checked it st then Some (shownQuantity it st) else None.

End View.

Module Page.

Definition setCustomers (v : list Customer.t) (st : State) : State :=
  {| token := token st; customers := v; items := items st;
     orders := orders st; customerForm := customerForm st;
     itemForm := itemForm st; orderForm := orderForm st;
     orderItems := orderItems st |}.

Definition setCustomerForm (v : CustomerForm.t) (st : State) : State :=
  {| token := token st; customers := customers st; items := items st;
     orders := orders st; customerForm := v;
     itemForm := itemForm st; orderForm := orderForm st;
     orderItems := orderItems st |}.

Definition setToken (v : jsstring) (st : State) : State :=
  {| token := v; customers := customers st; items := items st;
     orders := orders st; customerForm := customerForm st;
     itemForm := itemForm st; orderForm := orderForm st;
     orderItems := orderItems st |}.

(** Every call to [fetch] the page makes. *)
Inductive call :=
| Composer (r : request)
| PostCustomer (bearer : jsstring) (form : CustomerForm.t)
| PostLogin (username password : jsstring)
| GetList (url bearer : jsstring).

(** [response] is the document the server answers with, [None] when
    [fetch] or [res.json()] rejects. *)
Definition createCustomer (response : option Customer.t) (st : State)
  : State * list call :=
  if negb (truthyString (CustomerForm.name (customerForm st)))
     || negb (truthyString (CustomerForm.email (customerForm st)))
  then (st, [])
  else
    let req := PostCustomer (token st) (customerForm st) in
    match response with
    | None => (st, [req])
    | Some data =>
        (setCustomerForm
           {| CustomerForm.name := []; CustomerForm.email := [];
              CustomerForm.phone := []; CustomerForm.address := [] |}
           (setCustomers (data :: customers st) st),
         [req])
    end.

(** The state cells outside the composer, around the ones above. *)
Record t := {
  username : jsstring;
  password : jsstring;
  authError : jsstring;
  page : jsstring;
  isLoading : bool;
  data : State
}.

(** The three ways the login request can end: [fetch] or a [json()]
    call rejects; the response is not [ok] and carries an [error]
    field, possibly absent; the response carries a token. *)
Inductive loginReply :=
| Unreachable
| Refused (error : option jsstring)
| Granted (token : jsstring).

Definition handleLogin (reply : loginReply) (p : t) : t * list call :=
  let req := PostLogin (username p) (password p) in
  match reply with
  | Unreachable =>
      ({| username := username p; password := password p;
          authError := lit "Network error";
          page := page p; isLoading := isLoading p; data := data p |},
       [req])
  | Refused error =>
      let shown :=
        match error with
        | Some m => if truthyString m then m else lit "Invalid credentials"
        | None => lit "Invalid credentials"
        end in
      ({| username := username p; password := password p;
          authError := shown;
          page := page p; isLoading := isLoading p; data := data p |},
       [req])
  | Granted tok =>
      ({| username := []; password := [];
          authError := [];
          page := page p; isLoading := isLoading p;
          data := setToken tok (data p) |},
       [req])
  end.

(** [if (!token)] the page renders the login form, otherwise the
    dashboard. *)
Definition showsDashboard (p : t) : bool := truthyString (token (data p)).

(** What each list route answers, [None] when the request or the
    decoding of its answer rejects. *)
Record server := {
  customersRoute : option (list Customer.t);
  itemsRoute : option (list Item.t);
  ordersRoute : option (list Order.t)
}.

Definition withData (isLoading' : bool) (st : State) (p : t) : t :=
  {| username := username p; password := password p;
     authError := authError p; page := page p;
     isLoading := isLoading'; data := st |}.

(** The effect run when [token] or [page] changes, taken to its end:
    the [finally] clause has put [isLoading] back to false. *)
Definition fetchData (srv : server) (p : t) : t * list call :=
  if negb (truthyString (token (data p))) then (p, [])
  else if strictEq (page p) (lit "customers") then
    (withData false
       (match customersRoute srv with
        | Some l => setCustomers l (data p)
        | None => data p
        end) p,
     [GetList (lit "/api/customers") (token (data p))])
  else if strictEq (page p) (lit "items") then
    (withData false
       (match itemsRoute srv with
        | Some l => setItems l (data p)
        | None => data p
        end) p,
     [GetList (lit "/api/items") (token (data p))])
  else if strictEq (page p) (lit "orders") then
    (withData false
       (match ordersRoute srv with
        | Some l => setOrders l (data p)
        | None => data p
        end) p,
     [GetList (lit "/api/orders") (token (data p))])
  else (withData false (data p) p, []).

(** One user action or completed request, as a step of the composer
    state. *)
Inductive step : State -> State -> Prop :=
| step_toggle item st : step st (toggleItemInOrder item st)
| step_quantity id qty st : step st (updateItemQty id qty st)
| step_createOrder now response st :
    step st (fst (createOrder now response st))
| step_status id status delivered st :
    step st (fst (updateOrderStatus id status delivered st))
| step_createItem now response st :
    step st (fst (createItem now response st))
| step_createCustomer response st :
    step st (fst (createCustomer response st))
| step_login tok st : step st (setToken tok st)
| step_customers l st : step st (setCustomers l st)
| step_items l st : step st (setItems l st)
| step_orders l st : step st (setOrders l st).

(** The states the page can be in: it starts with nothing selected. *)
Inductive reachable : State -> Prop :=
| reachable_start st : orderItems st = [] -> reachable st
| reachable_step st st' : reachable st -> step st st' -> reachable st'.

(** Every selected line has a quantity, and it is neither 0 nor NaN. *)
Definition quantitiesSet (lines : list OrderLine.t) : Prop :=
  Forall (fun l => exists q, OrderLine.quantity l = Some q
                             /\ ToBoolean q = true) lines.

End Page.

Import View Page.

(** ** More concrete data *)

Module Scenario.

Definition ann : Customer.t :=
  {| Customer._id := lit "c1"; Customer.name := lit "Ann";
     Customer.email := lit "ann@example.org"; Customer.phone := [];
     Customer.address := [] |}.

(** The operator has typed a new customer's name and email. *)
Definition registering : State :=
  setCustomerForm
    {| CustomerForm.name := lit "Ann";
       CustomerForm.email := lit "ann@example.org";
       CustomerForm.phone := []; CustomerForm.address := [] |}
    (Sample.composing [Sample.line (lit "a1") 3 10]).

(** The page of a signed-in operator, on the given tab. *)
Definition dashboard (tab : jsstring) (st : State) : Page.t :=
  {| username := []; password := []; authError := [];
     page := tab; isLoading := false; data := st |}.

(** The login form, filled in, before any token was received. *)
Definition loginForm : Page.t :=
  {| username := lit "admin"; password := lit "secret"; authError := [];
     page := lit "customers"; isLoading := false;
     data := setToken [] (Sample.composing []) |}.

Definition answers : server :=
  {| customersRoute := Some [ann];
     itemsRoute := Some [Sample.ink];
     ordersRoute := None |}.

End Scenario.

(** ** The built-ins on known values *)

Example parseInt_examples :
  parseInt (lit "42") = 42%float
  /\ parseInt (lit "  -5") = (-5)%float
  /\ parseInt (lit "+7px") = 7%float
  /\ parseInt (lit "2.7") = 2%float
  /\ parseInt (lit "0x1F") = 31%float
  /\ parseInt (lit "-0") = (-0)%float
  /\ is_nan (parseInt (lit "abc")) = true
  /\ is_nan (parseInt (lit "")) = true
  /\ is_nan (parseInt (lit "0x")) = true
  /\ parseInt (lit "9007199254740993") = 9007199254740992%float.
Proof. repeat split; reflexivity. Qed.

(** [0x1.0147ae147ae14p+0] is the binary64 value written [1.005]; it
    lies below 1.005 and prints as 1.00. *)
Example toFixed_examples :
  toFixed Sample.noExponent 25.5 2 = Normal (lit "25.50")
  /\ toFixed Sample.noExponent 0 2 = Normal (lit "0.00")
  /\ toFixed Sample.noExponent (-0) 2 = Normal (lit "0.00")
  /\ toFixed Sample.noExponent 0.125 2 = Normal (lit "0.13")
  /\ toFixed Sample.noExponent (-2.5) 0 = Normal (lit "-3")
  /\ toFixed Sample.noExponent 0x1.0147ae147ae14p+0 2 = Normal (lit "1.00")
  /\ toFixed Sample.noExponent 1e20 1 = Normal (lit "100000000000000000000.0")
  /\ toFixed Sample.noExponent nan 2 = Normal (lit "NaN")
  /\ toFixed Sample.noExponent neg_infinity 2 = Normal (lit "-Infinity")
  /\ toFixed Sample.noExponent 1 101 = Throw RangeError.
Proof. repeat split; reflexivity. Qed.

Example trim_examples :
  trim (lit "  a b  ") = lit "a b"
  /\ trim (lit "   ") = []
  /\ trim ([9; 160; 65279] ++ lit "x" ++ [8232; 13; 10])%N = lit "x"
  /\ integerToString 1700000000000 = lit "1700000000000"
  /\ integerToString 0 = lit "0"
  /\ integerToString (-15) = lit "-15".
Proof. repeat split; reflexivity. Qed.

(** ** Strings and state: basic facts *)

(** Two values are told apart by an observation [f] that evaluates to
    different booleans on them. *)
Ltac distinguish_by f H :=
  apply (f_equal f) in H; vm_compute in H; discriminate H.

Lemma strictEq_true_iff (a b : jsstring) : strictEq a b = true <-> a = b.
Proof.
  revert b; induction a as [|x a IH]; intros [|y b]; simpl;
    try (split; [discriminate | congruence]); [tauto|].
  rewrite andb_true_iff, N.eqb_eq, IH.
  split; [intros [-> ->]; reflexivity | intros H; inversion H; auto].
Qed.

Lemma strictEq_false_iff (a b : jsstring) : strictEq a b = false <-> a <> b.
Proof.
  rewrite <- strictEq_true_iff. destruct (strictEq a b); split;
    congruence.
Qed.

Lemma strictEq_refl (a : jsstring) : strictEq a a = true.
Proof. apply strictEq_true_iff; reflexivity. Qed.

Lemma setOrderItems_same (st : State) : setOrderItems (orderItems st) st = st.
Proof. destruct st; reflexivity. Qed.

Lemma setOrderItems_twice (u v : list OrderLine.t) (st : State) :
  setOrderItems u (setOrderItems v st) = setOrderItems u st.
Proof. reflexivity. Qed.

(** ** Decimal digits read back as the integer they print *)

Lemma radixDigit_decimal (d : Z) :
  0 <= d < 10 -> radixDigit 10 (Z.to_N (48 + d)) = Some d.
Proof.
  intros H. unfold radixDigit, digitValue. rewrite Z2N.id by lia.
  replace ((48 <=? 48 + d) && (48 + d <=? 57)) with true
    by (symmetry; apply andb_true_iff; split; apply Z.leb_le; lia).
  replace (48 + d - 48) with d by lia.
  replace (d <? 10) with true by (symmetry; apply Z.ltb_lt; lia).
  reflexivity.
Qed.

Lemma digitsPrefix_decimal (ds : list Z) :
  Forall (fun d => 0 <= d < 10) ds ->
  digitsPrefix 10 (map (fun d => Z.to_N (48 + d)) ds) = ds.
Proof.
  induction 1 as [|d r Hd _ IH]; cbn [map digitsPrefix]; [reflexivity|].
  rewrite (radixDigit_decimal d Hd), IH. reflexivity.
Qed.

Lemma digitsLoop_value (fuel : nat) :
  forall n acc,
    fuel <> 0%nat -> 0 <= n < 10 ^ Z.of_nat fuel ->
    exists ds,
      digitsLoop fuel n acc = map (fun d => Z.to_N (48 + d)) ds ++ acc
      /\ Forall (fun d => 0 <= d < 10) ds
      /\ mathInt 10 ds = n.
Proof.
  induction fuel as [|f IH]; intros n acc Hf Hn; [congruence|].
  cbn [digitsLoop].
  pose proof (Z.mod_pos_bound n 10 ltac:(lia)) as Hm.
  pose proof (Z.div_mod n 10 ltac:(lia)) as Hdm.
  destruct (n / 10 =? 0) eqn:E.
  - apply Z.eqb_eq in E. exists [n mod 10]. repeat split.
    + constructor; [exact Hm | constructor].
    + unfold mathInt; simpl. lia.
  - apply Z.eqb_neq in E.
    assert (Hf' : f <> 0%nat).
    { intros ->. change (10 ^ Z.of_nat 1) with 10 in Hn.
      apply E, Z.div_small. lia. }
    assert (Hq : 0 <= n / 10 < 10 ^ Z.of_nat f).
    { split; [apply Z.div_pos; lia|].
      apply Z.div_lt_upper_bound; [lia|].
      rewrite Nat2Z.inj_succ, Z.pow_succ_r in Hn by lia. lia. }
    destruct (IH (n / 10) (Z.to_N (48 + n mod 10) :: acc) Hf' Hq)
      as [ds [Hds [Hall Hval]]].
    exists (ds ++ [n mod 10]). repeat split.
    + rewrite Hds, map_app, <- app_assoc. reflexivity.
    + apply Forall_app. split; [exact Hall | constructor; [exact Hm|constructor]].
    + unfold mathInt in *. rewrite fold_left_app, Hval. simpl. lia.
Qed.

Lemma decimalDigits_value (n : Z) :
  0 <= n -> mathInt 10 (digitsPrefix 10 (decimalDigits n)) = n.
Proof.
  intros Hn. unfold decimalDigits.
  destruct (digitsLoop_value (S (Z.to_nat (Z.log2 n))) n [])
    as [ds [Hds [Hall Hval]]]; [discriminate| |].
  - split; [exact Hn|].
    rewrite Nat2Z.inj_succ, Z2Nat.id by apply Z.log2_nonneg.
    destruct (Z.eq_dec n 0) as [->|Hz]; [reflexivity|].
    apply Z.lt_le_trans with (2 ^ Z.succ (Z.log2 n)).
    + apply Z.log2_spec. lia.
    + apply Z.pow_le_mono_l. lia.
  - rewrite Hds, app_nil_r, (digitsPrefix_decimal ds Hall). exact Hval.
Qed.

(** ** The item toggle *)

Section Toggle.

Variable item : Item.t.

Let refersTo (l : OrderLine.t) : bool :=
  strictEq (OrderLine.itemMongoId l) (Item._id item).

Let fresh : OrderLine.t :=
  {| OrderLine.itemMongoId := Item._id item;
     OrderLine.quantity := Some 1%float;
     OrderLine.price := Item.price item |}.

Lemma find_refersTo_none (lines : list OrderLine.t) :
  find refersTo lines = None <->
  (forall l, In l lines -> OrderLine.itemMongoId l <> Item._id item).
Proof.
  split.
  - intros H l Hl. apply strictEq_false_iff.
    apply (find_none _ _ H l Hl).
  - intros H. induction lines as [|x r IH]; simpl; [reflexivity|].
    assert (Hx : refersTo x = false)
      by (apply strictEq_false_iff, H; left; reflexivity).
    rewrite Hx. apply IH. intros l Hl. apply H. right; exact Hl.
Qed.

Lemma find_refersTo_some (lines : list OrderLine.t) :
  (exists l, In l lines /\ OrderLine.itemMongoId l = Item._id item) ->
  exists x, find refersTo lines = Some x.
Proof.
  intros [l [Hl Hid]].
  destruct (find refersTo lines) as [x|] eqn:E; [eauto|].
  exfalso. apply (proj1 (find_refersTo_none lines) E l Hl Hid).
Qed.

Lemma filter_others_absent (lines : list OrderLine.t) :
  (forall l, In l lines -> OrderLine.itemMongoId l <> Item._id item) ->
  filter (fun l => negb (refersTo l)) lines = lines.
Proof.
  induction lines as [|x r IH]; intros H; simpl; [reflexivity|].
  assert (Hx : refersTo x = false)
    by (apply strictEq_false_iff, H; left; reflexivity).
  rewrite Hx; simpl. f_equal. apply IH.
  intros l Hl. apply H. right; exact Hl.
Qed.

Lemma toggle_absent (st : State) :
  (forall l, In l (orderItems st) ->
             OrderLine.itemMongoId l <> Item._id item) ->
  toggleItemInOrder item st = setOrderItems (orderItems st ++ [fresh]) st.
Proof.
  intros H. unfold toggleItemInOrder.
  fold refersTo. rewrite (proj2 (find_refersTo_none _) H). reflexivity.
Qed.

Lemma toggle_present (st : State) :
  (exists l, In l (orderItems st) /\
             OrderLine.itemMongoId l = Item._id item) ->
  toggleItemInOrder item st =
  setOrderItems (filter (fun l => negb (refersTo l)) (orderItems st)) st.
Proof.
  intros H. unfold toggleItemInOrder. fold refersTo.
  destruct (find_refersTo_some _ H) as [x ->]. reflexivity.
Qed.

Lemma toggle_frame (st : State) :
  toggleItemInOrder item st =
  setOrderItems (orderItems (toggleItemInOrder item st)) st.
Proof.
  unfold toggleItemInOrder. destruct (find _ _); reflexivity.
Qed.

End Toggle.

(** C3: [toggleItemInOrder] removes the lines that refer to the item's
    [_id] when there is one, keeping every other line in place, and
    otherwise appends exactly one line for that [_id] with quantity 1 and
    the item's price; no other state cell of the component changes. *)
Theorem toggleItemInOrder_removes_or_appends (item : Item.t) (st : State) :
  let lines := orderItems st in
  let st' := toggleItemInOrder item st in
  ((exists l, In l lines /\ OrderLine.itemMongoId l = Item._id item) ->
     (forall l, In l (orderItems st') <->
                In l lines /\ OrderLine.itemMongoId l <> Item._id item)
     /\ orderItems st' =
        filter (fun l => negb (strictEq (OrderLine.itemMongoId l)
                                        (Item._id item))) lines)
  /\ ((forall l, In l lines -> OrderLine.itemMongoId l <> Item._id item) ->
        orderItems st' =
        lines ++ [ {| OrderLine.itemMongoId := Item._id item;
                      OrderLine.quantity := Some 1%float;
                      OrderLine.price := Item.price item |} ])
  /\ token st' = token st
  /\ customers st' = customers st
  /\ items st' = items st
  /\ orders st' = orders st
  /\ customerForm st' = customerForm st
  /\ itemForm st' = itemForm st
  /\ orderForm st' = orderForm st.
Proof.
  intros lines st'. split; [|split].
  - intros Hin. subst st'. rewrite (toggle_present item st Hin). simpl.
    split; [|reflexivity].
    intros l. rewrite filter_In, negb_true_iff, strictEq_false_iff.
    reflexivity.
  - intros Hout. subst st'. rewrite (toggle_absent item st Hout).
    reflexivity.
  - subst st'. rewrite (toggle_frame item st). repeat split.
Qed.

Lemma toggleItemInOrder_removes_or_appends_witness :
  orderItems (toggleItemInOrder Sample.pen
                (Sample.composing [Sample.line (lit "a1") 3 10;
                                   Sample.line (lit "b2") 1 5.5]))
  = [Sample.line (lit "b2") 1 5.5]
  /\ orderItems (toggleItemInOrder Sample.pen
                   (Sample.composing [Sample.line (lit "b2") 1 5.5]))
     = [Sample.line (lit "b2") 1 5.5; Sample.line (lit "a1") 1 10].
Proof.
  split.
  - pose proof (toggleItemInOrder_removes_or_appends Sample.pen
                  (Sample.composing [Sample.line (lit "a1") 3 10;
                                     Sample.line (lit "b2") 1 5.5])) as H.
    destruct H as [H _].
    destruct H as [_ H].
    + exists (Sample.line (lit "a1") 3 10). split; [left|]; reflexivity.
    + rewrite H. reflexivity.
  - pose proof (toggleItemInOrder_removes_or_appends Sample.pen
                  (Sample.composing [Sample.line (lit "b2") 1 5.5])) as H.
    destruct H as [_ [H _]].
    rewrite H; [reflexivity|].
    intros l [<-|[]]. vm_compute. discriminate.
Defined.

(** ** Toggling the same item twice *)

(** C2, as stated, fails: a selected item whose quantity was raised comes
    back with quantity 1 after two toggles. *)
Lemma toggle_twice_counterexample :
  let st := Sample.composing [Sample.line (lit "a1") 3 10] in
  orderItems (toggleItemInOrder Sample.pen (toggleItemInOrder Sample.pen st))
  = [Sample.line (lit "a1") 1 10]
  /\ orderItems (toggleItemInOrder Sample.pen
                   (toggleItemInOrder Sample.pen st))
     <> orderItems st.
Proof.
  split; [reflexivity|].
  intros H.
  distinguish_by
    (fun ls => match ls with
               | [l] => match OrderLine.quantity l with
                        | Some q => PrimFloat.eqb q 3
                        | None => false
                        end
               | _ => false
               end) H.
Qed.

(** C2, amended: when no selected line refers to the item, toggling it
    twice gives back the same line set, and the same component state. *)
Theorem toggle_twice_absent (item : Item.t) (st : State) :
  (forall l, In l (orderItems st) ->
             OrderLine.itemMongoId l <> Item._id item) ->
  toggleItemInOrder item (toggleItemInOrder item st) = st
  /\ orderItems (toggleItemInOrder item (toggleItemInOrder item st))
     = orderItems st.
Proof.
  intros Hout.
  assert (E : toggleItemInOrder item (toggleItemInOrder item st) = st);
    [|split; [exact E | rewrite E; reflexivity]].
  rewrite (toggle_absent item st Hout).
  rewrite toggle_present.
  - cbn [orderItems setOrderItems].
    rewrite filter_app, (filter_others_absent item _ Hout).
    cbn [filter OrderLine.itemMongoId]. rewrite strictEq_refl.
    cbn [negb]. rewrite app_nil_r.
    apply (setOrderItems_same st).
  - simpl. eexists. split; [apply in_or_app; right; left; reflexivity|].
    reflexivity.
Qed.

Lemma toggle_twice_absent_witness :
  let st := Sample.composing [Sample.line (lit "b2") 4 5.5] in
  toggleItemInOrder Sample.pen (toggleItemInOrder Sample.pen st) = st.
Proof.
  apply (toggle_twice_absent Sample.pen
           (Sample.composing [Sample.line (lit "b2") 4 5.5])).
  intros l [<-|[]]. vm_compute. discriminate.
Defined.

(** X8: when the item is already selected, two toggles move it to the end
    with quantity 1 and the item's current price. *)
Lemma toggle_twice_present (item : Item.t) (st : State) :
  (exists l, In l (orderItems st) /\
             OrderLine.itemMongoId l = Item._id item) ->
  orderItems (toggleItemInOrder item (toggleItemInOrder item st)) =
  filter (fun l => negb (strictEq (OrderLine.itemMongoId l) (Item._id item)))
         (orderItems st)
  ++ [ {| OrderLine.itemMongoId := Item._id item;
          OrderLine.quantity := Some 1%float;
          OrderLine.price := Item.price item |} ].
Proof.
  intros Hin. rewrite (toggle_present item st Hin).
  rewrite toggle_absent; [reflexivity|].
  simpl. intros l Hl. apply filter_In in Hl. destruct Hl as [_ Hl].
  apply strictEq_false_iff. apply negb_true_iff. exact Hl.
Qed.

(** ** Quantity updates *)

(** The quantity stored for a raw input: [parseInt(qty) || 1]. *)
Lemma updateItemQty_lines (id qty : jsstring) (st : State) :
  orderItems (updateItemQty id qty st) =
  map (fun i =>
         if strictEq (OrderLine.itemMongoId i) id
         then {| OrderLine.itemMongoId := OrderLine.itemMongoId i;
                 OrderLine.quantity := Some (orElse (parseInt qty) 1%float);
                 OrderLine.price := OrderLine.price i |}
         else i)
      (orderItems st).
Proof. reflexivity. Qed.

Lemma updateItemQty_keeps_ids (id qty : jsstring) (st : State) :
  map OrderLine.itemMongoId (orderItems (updateItemQty id qty st)) =
  map OrderLine.itemMongoId (orderItems st).
Proof.
  rewrite updateItemQty_lines, map_map. apply map_ext.
  intros i. destruct (strictEq _ _); reflexivity.
Qed.

(** X29: line by line, a line for [id] has its quantity replaced and its
    other fields kept, any other line is unchanged. *)
Lemma updateItemQty_nth (id qty : jsstring) (st : State) (n : nat)
      (l : OrderLine.t) :
  nth_error (orderItems st) n = Some l ->
  exists l', nth_error (orderItems (updateItemQty id qty st)) n = Some l'
    /\ (OrderLine.itemMongoId l = id ->
          OrderLine.quantity l' = Some (orElse (parseInt qty) 1%float)
          /\ OrderLine.itemMongoId l' = OrderLine.itemMongoId l
          /\ OrderLine.price l' = OrderLine.price l)
    /\ (OrderLine.itemMongoId l <> id -> l' = l).
Proof.
  intros Hn. rewrite updateItemQty_lines, nth_error_map, Hn.
  cbn [option_map]. eexists. split; [reflexivity|]. split.
  - intros E. apply strictEq_true_iff in E. rewrite E. repeat split.
  - intros E. apply strictEq_false_iff in E. rewrite E. reflexivity.
Qed.

(** ** Uniqueness of the item reference *)

Lemma uniqueRefs_filter (p : OrderLine.t -> bool) (lines : list OrderLine.t) :
  uniqueRefs lines -> uniqueRefs (filter p lines).
Proof.
  unfold uniqueRefs. induction lines as [|x r IH]; simpl; intros H; [exact H|].
  inversion H as [|? ? Hx Hr]; subst.
  destruct (p x); simpl; [|apply IH; exact Hr].
  constructor; [|apply IH; exact Hr].
  intros Hin. apply Hx. apply in_map_iff in Hin.
  destruct Hin as [l [El Hl]]. apply filter_In in Hl.
  apply in_map_iff. exists l. tauto.
Qed.

Lemma uniqueRefs_snoc (lines : list OrderLine.t) (l : OrderLine.t) :
  uniqueRefs lines ->
  (forall x, In x lines -> OrderLine.itemMongoId x <> OrderLine.itemMongoId l) ->
  uniqueRefs (lines ++ [l]).
Proof.
  unfold uniqueRefs. induction lines as [|x r IH]; simpl; intros H Hl.
  - constructor; [intros []| constructor].
  - inversion H as [|? ? Hx Hr]; subst. constructor.
    + rewrite map_app, in_app_iff. intros [Hin|[Hin|[]]];
        [exact (Hx Hin) | apply (Hl x); [left; reflexivity | symmetry; exact Hin]].
    + apply IH; [exact Hr|]. intros y Hy. apply Hl. right; exact Hy.
Qed.

(** C6: when every item reference occurs at most once among the selected
    lines, the same holds after [toggleItemInOrder], after
    [updateItemQty] and after [createOrder]. *)
Theorem uniqueRefs_preserved (st : State) :
  uniqueRefs (orderItems st) ->
  (forall item, uniqueRefs (orderItems (toggleItemInOrder item st)))
  /\ (forall id qty, uniqueRefs (orderItems (updateItemQty id qty st)))
  /\ (forall now response,
        uniqueRefs (orderItems (fst (createOrder now response st)))).
Proof.
  intros H. split; [|split].
  - intros item. unfold toggleItemInOrder.
    destruct (find _ (orderItems st)) as [x|] eqn:E;
      cbn [orderItems setOrderItems].
    + apply uniqueRefs_filter, H.
    + apply uniqueRefs_snoc; [exact H|].
      apply (proj1 (find_refersTo_none item _) E).
  - intros id qty. unfold uniqueRefs.
    rewrite updateItemQty_keeps_ids. exact H.
  - intros now response. unfold createOrder.
    destruct (_ || _); [exact H|].
    destruct response; [constructor | exact H].
Qed.

Lemma uniqueRefs_preserved_witness :
  let st := Sample.composing [Sample.line (lit "a1") 3 10;
                              Sample.line (lit "b2") 1 5.5] in
  uniqueRefs (orderItems (toggleItemInOrder Sample.pen st))
  /\ uniqueRefs (orderItems (toggleItemInOrder Sample.ink st))
  /\ uniqueRefs (orderItems (updateItemQty (lit "b2") (lit "7") st)).
Proof.
  intros st.
  assert (H : uniqueRefs (orderItems st)).
  { unfold uniqueRefs. vm_compute.
    constructor; [intros [E|[]]; discriminate E|].
    constructor; [intros []|constructor]. }
  destruct (uniqueRefs_preserved st H) as [Ht [Hq _]].
  split; [apply Ht | split; [apply Ht | apply Hq]].
Defined.

(** ** Quantity coercion *)

Lemma orElse_truthy (x d : number) :
  ToBoolean d = true -> ToBoolean (orElse x d) = true.
Proof.
  intros Hd. unfold orElse. destruct (ToBoolean x) eqn:E; assumption.
Qed.

Lemma ToBoolean_not_nan (x : number) : ToBoolean x = true -> is_nan x = false.
Proof.
  unfold ToBoolean. rewrite negb_true_iff, orb_false_iff. tauto.
Qed.

Lemma orElse_of_nan (x d : number) : is_nan x = true -> orElse x d = d.
Proof.
  intros H. unfold orElse, ToBoolean. rewrite H, orb_true_r. reflexivity.
Qed.

(** The quantity written by [updateItemQty] is never [NaN] and never zero. *)
Lemma coerced_quantity_truthy (qty : jsstring) :
  ToBoolean (orElse (parseInt qty) 1%float) = true.
Proof. apply orElse_truthy. reflexivity. Qed.

Example coerced_quantity_examples :
  orElse (parseInt (lit "abc")) 1%float = 1%float
  /\ orElse (parseInt (lit "0")) 1%float = 1%float
  /\ orElse (parseInt (lit "")) 1%float = 1%float
  /\ orElse (parseInt (lit " 12 ")) 1%float = 12%float
  /\ orElse (parseInt (lit "3.9")) 1%float = 3%float
  /\ orElse (parseInt (lit "0x10")) 1%float = 16%float.
Proof. repeat split; reflexivity. Qed.

(** C1: the positive-quantity guarantee is not met.  [updateItemQty]
    stores [parseInt(qty) || 1], which replaces a failed parse and zero by
    1 but lets a negative integer through: the raw value ["-5"] on a
    selected line stores the quantity [-5]. *)
Theorem updateItemQty_negative_quantity :
  orderItems (updateItemQty (lit "a1") (lit "-5")
                (Sample.composing [Sample.line (lit "a1") 1 10;
                                   Sample.line (lit "b2") 1 5.5]))
  = [Sample.line (lit "a1") (-5) 10; Sample.line (lit "b2") 1 5.5]
  /\ (orElse (parseInt (lit "-5")) 1 <? 0)%float = true.
Proof. split; reflexivity. Qed.

(** ** Order creation *)

(** C9: with no customer chosen, or with no line selected, [createOrder]
    sends no request and leaves the whole component state, and so the
    orders, the order form and the selected lines, as they were. *)
Theorem createOrder_guard (now : Z) (response : option Order.t) (st : State) :
  OrderForm.customerId (orderForm st) = [] \/ orderItems st = [] ->
  createOrder now response st = (st, [])
  /\ orders (fst (createOrder now response st)) = orders st
  /\ orderForm (fst (createOrder now response st)) = orderForm st
  /\ orderItems (fst (createOrder now response st)) = orderItems st
  /\ snd (createOrder now response st) = [].
Proof.
  intros H.
  assert (E : createOrder now response st = (st, [])).
  { unfold createOrder. destruct H as [H|H]; rewrite H; simpl.
    - reflexivity.
    - rewrite orb_true_r. reflexivity. }
  rewrite E. repeat split.
Qed.

Lemma createOrder_guard_witness :
  createOrder 1700000000000 (Some Sample.order1) (Sample.composing [])
  = (Sample.composing [], []).
Proof.
  apply (createOrder_guard 1700000000000 (Some Sample.order1)
           (Sample.composing [])).
  right. reflexivity.
Defined.

(** Past the guard the request goes out, and a resolved response is put
    in front of the orders while the form and the selection are reset. *)
Lemma createOrder_submits (now : Z) (data : Order.t) (st : State) :
  OrderForm.customerId (orderForm st) <> [] ->
  orderItems st <> [] ->
  let r := createOrder now (Some data) st in
  orders (fst r) = data :: orders st
  /\ orderItems (fst r) = []
  /\ map payload (snd r) =
     [OrderBody (OrderForm.customerId (orderForm st))
                (generateCode (lit "ORD_") (OrderForm.orderId (orderForm st)) now)
                (OrderForm.status (orderForm st)) (orderItems st)].
Proof.
  intros Hc Hl. unfold createOrder.
  destruct (OrderForm.customerId (orderForm st)) as [|c cs]; [congruence|].
  destruct (orderItems st) as [|l ls]; [congruence|].
  simpl. repeat split.
Qed.

(** ** Status updates *)

(** C10: after [updateOrderStatus] the orders are the same in number and
    position; an order whose [_id] is the given one has the new status
    and its other fields as before, every other order is unchanged, and
    so are the other state cells. *)
Theorem updateOrderStatus_frame (orderId newStatus : jsstring) (st : State) :
  let st' := fst (updateOrderStatus orderId newStatus true st) in
  List.length (orders st') = List.length (orders st)
  /\ (forall n o, nth_error (orders st) n = Some o ->
        exists o', nth_error (orders st') n = Some o'
          /\ (Order._id o = orderId ->
                Order.status o' = newStatus
                /\ Order._id o' = Order._id o
                /\ Order.orderId o' = Order.orderId o
                /\ Order.customerId o' = Order.customerId o
                /\ Order.items o' = Order.items o)
          /\ (Order._id o <> orderId -> o' = o))
  /\ st' = setOrders (orders st') st.
Proof.
  intros st'. subst st'. cbn [updateOrderStatus fst orders setOrders].
  split; [apply length_map|]. split; [|reflexivity].
  intros n o Hn. rewrite nth_error_map, Hn. cbn [option_map].
  eexists. split; [reflexivity|]. split.
  - intros E. apply strictEq_true_iff in E. rewrite E. repeat split.
  - intros E. apply strictEq_false_iff in E. rewrite E. reflexivity.
Qed.

(** When the request is rejected the handler stops before [setOrders]. *)
Lemma updateOrderStatus_rejected (orderId newStatus : jsstring) (st : State) :
  fst (updateOrderStatus orderId newStatus false st) = st.
Proof. reflexivity. Qed.

Lemma updateOrderStatus_frame_witness :
  map Order.status
      (orders (fst (updateOrderStatus (lit "o2") (lit "Cancelled") true
                      (Sample.composing []))))
  = [lit "Pending"; lit "Cancelled"]
  /\ nth_error (orders (fst (updateOrderStatus (lit "o2") (lit "Cancelled")
                               true (Sample.composing [])))) 0
     = Some Sample.order1.
Proof.
  pose proof (updateOrderStatus_frame (lit "o2") (lit "Cancelled")
                (Sample.composing [])) as H.
  destruct H as [_ [H _]].
  destruct (H 0%nat Sample.order1 eq_refl) as [o' [Ho' [_ Hne]]].
  split; [reflexivity|].
  rewrite Ho'. f_equal. apply Hne. vm_compute. discriminate.
Defined.

(** ** Blank strings and generated codes *)

Lemma trimStart_head (s : jsstring) :
  trimStart s = [] \/
  exists c r, trimStart s = c :: r /\ isWhiteSpace c = false.
Proof.
  induction s as [|c r IH]; simpl; [left; reflexivity|].
  destruct (isWhiteSpace c) eqn:E; [exact IH|].
  right. exists c, r. split; [reflexivity | exact E].
Qed.

Lemma trimStart_nil_iff (s : jsstring) : trimStart s = [] <-> blank s.
Proof.
  unfold blank. induction s as [|c r IH]; simpl.
  - split; [constructor | reflexivity].
  - destruct (isWhiteSpace c) eqn:E.
    + rewrite IH. split; [constructor; assumption|].
      intros H; inversion H; assumption.
    + split; [discriminate|]. intros H; inversion H; congruence.
Qed.

Lemma blank_rev (s : jsstring) : blank (rev s) <-> blank s.
Proof.
  unfold blank. rewrite !Forall_forall.
  split; intros H c Hc; apply H; [apply in_rev in Hc | apply in_rev];
    exact Hc.
Qed.

Lemma trim_nil_iff (s : jsstring) : trim s = [] <-> blank s.
Proof.
  unfold trim, trimEnd.
  split.
  - intros H. apply (f_equal (@rev _)) in H.
    rewrite rev_involutive in H. simpl in H.
    apply trimStart_nil_iff in H. apply (proj1 (blank_rev _)) in H.
    destruct (trimStart_head s) as [E|[c [r [E Hc]]]].
    + apply trimStart_nil_iff. exact E.
    + rewrite E in H. unfold blank in H. inversion H; congruence.
  - intros H. apply trimStart_nil_iff in H. rewrite H. reflexivity.
Qed.

Lemma not_blank_app_r (a b : jsstring) : ~ blank b -> ~ blank (a ++ b).
Proof.
  unfold blank. intros Hb H. apply Hb. apply Forall_app in H. tauto.
Qed.

Lemma not_whitespace_45_57 (c : code_unit) :
  45 <= Z.of_N c <= 57 -> isWhiteSpace c = false.
Proof.
  intros H. unfold isWhiteSpace.
  repeat (apply orb_false_intro);
    rewrite ?andb_false_iff, ?Z.leb_gt, ?Z.eqb_neq; lia.
Qed.

Lemma digitsLoop_head (fuel : nat) (n : Z) (acc : jsstring) :
  (fuel <> 0%nat \/ acc <> []) ->
  (forall c, In c acc -> 45 <= Z.of_N c <= 57) ->
  exists c r, digitsLoop fuel n acc = c :: r /\ 45 <= Z.of_N c <= 57.
Proof.
  revert n acc. induction fuel as [|f IH]; intros n acc Hne Hacc; simpl.
  - destruct acc as [|c r]; [destruct Hne; congruence|].
    exists c, r. split; [reflexivity | apply Hacc; left; reflexivity].
  - assert (Hd : 45 <= Z.of_N (Z.to_N (48 + n mod 10)) <= 57).
    { pose proof (Z.mod_pos_bound n 10 ltac:(lia)). rewrite Z2N.id; lia. }
    destruct (n / 10 =? 0).
    + eexists _, _. split; [reflexivity | exact Hd].
    + apply IH; [right; discriminate|].
      intros c [<-|Hc]; [exact Hd | apply Hacc, Hc].
Qed.

Lemma integerToString_not_blank (z : Z) : ~ blank (integerToString z).
Proof.
  unfold integerToString, blank. intros H.
  destruct (z <? 0).
  - inversion H as [|? ? Hc _]; subst. vm_compute in Hc. discriminate.
  - unfold decimalDigits in H.
    destruct (digitsLoop_head (S (Z.to_nat (Z.log2 z))) z [])
      as [c [r [E Hc]]]; [left; discriminate | intros c [] |].
    rewrite E in H. inversion H as [|? ? Hw _]; subst.
    rewrite (not_whitespace_45_57 c Hc) in Hw. discriminate.
Qed.

(** C7: with a blank identifier (empty or white space only) the code is
    the prefix followed by the current time stamp, so it is not blank and
    starts with the prefix; an identifier that is not blank is used as
    typed. *)
Theorem generateCode_fallback (prefix supplied : jsstring) (now : Z) :
  (blank supplied ->
     generateCode prefix supplied now = prefix ++ integerToString now
     /\ ~ blank (generateCode prefix supplied now)
     /\ trim (generateCode prefix supplied now) <> []
     /\ firstn (List.length prefix) (generateCode prefix supplied now) = prefix)
  /\ (~ blank supplied -> generateCode prefix supplied now = supplied).
Proof.
  unfold generateCode. split.
  - intros Hb.
    assert (E : truthyString supplied && negb (strictEq (trim supplied) [])
                = false).
    { apply trim_nil_iff in Hb. rewrite Hb. simpl. apply andb_false_r. }
    rewrite E.
    assert (Hn : ~ blank (prefix ++ integerToString now))
      by apply not_blank_app_r, integerToString_not_blank.
    repeat split.
    + exact Hn.
    + intros Ht. apply Hn, trim_nil_iff, Ht.
    + rewrite firstn_app, Nat.sub_diag, firstn_all. simpl. apply app_nil_r.
  - intros Hnb.
    assert (Ht : strictEq (trim supplied) [] = false).
    { apply strictEq_false_iff. intros Ht. apply Hnb, trim_nil_iff, Ht. }
    rewrite Ht. destruct supplied as [|c r]; [|reflexivity].
    exfalso. apply Hnb. constructor.
Qed.

Lemma generateCode_fallback_witness :
  generateCode (lit "ORD_") (lit "  ") 1700000000000
  = lit "ORD_1700000000000"
  /\ generateCode (lit "ITEM_") (lit " A-7 ") 1700000000000 = lit " A-7 ".
Proof.
  destruct (generateCode_fallback (lit "ORD_") (lit "  ") 1700000000000)
    as [H _].
  destruct (generateCode_fallback (lit "ITEM_") (lit " A-7 ") 1700000000000)
    as [_ K].
  split.
  - destruct H as [H _]; [|rewrite H; reflexivity].
    repeat constructor.
  - apply K. intros B. inversion B as [|? ? _ B1]; subst.
    inversion B1 as [|? ? Hc _]; subst. vm_compute in Hc. discriminate.
Defined.

(** The two places where a code is generated. *)
Lemma createItem_sends_generated_code (now : Z) (response : option Item.t)
      (st : State) :
  map payload (snd (createItem now response st)) =
  [ItemBody
     {| ItemForm.name := ItemForm.name (itemForm st);
        ItemForm.price := ItemForm.price (itemForm st);
        ItemForm.cost := ItemForm.cost (itemForm st);
        ItemForm.photo := ItemForm.photo (itemForm st);
        ItemForm.itemId :=
          generateCode (lit "ITEM_") (ItemForm.itemId (itemForm st)) now |}].
Proof. unfold createItem. destruct response; reflexivity. Qed.

(** ** The totals *)

Lemma fold_left_sumFrom {A} (f : A -> number) (l : list A) (acc : number) :
  fold_left (fun sum i => (sum + f i)%float) l acc = Spec.sumFrom acc (map f l).
Proof.
  revert acc. induction l as [|x r IH]; intros acc; simpl;
    [reflexivity | apply IH].
Qed.

Lemma parseFloat_orElse_zero (x : number) :
  parseFloat (orElse x 0%float) = orElse x 0%float.
Proof.
  unfold orElse. destruct (ToBoolean x) eqn:E; [|reflexivity].
  unfold ToBoolean in E. rewrite negb_true_iff, orb_false_iff in E.
  unfold parseFloat. rewrite (proj1 E). reflexivity.
Qed.

Lemma parseFloat_price (l : OrderLine.t) :
  parseFloat (orDefault (OrderLine.price l) 0%float) = Spec.priceOf l.
Proof.
  unfold Spec.priceOf, orDefault. destruct (OrderLine.price l) as [p|];
    [apply parseFloat_orElse_zero | reflexivity].
Qed.

Lemma orDefault_quantity (l : OrderLine.t) :
  orDefault (OrderLine.quantity l) 1%float = Spec.quantityOf l.
Proof. unfold Spec.quantityOf, orDefault. destruct (OrderLine.quantity l); reflexivity. Qed.

Lemma totalQty_sum (lines : list OrderLine.t) :
  totalQty (Some lines) = orElse (Spec.totalQuantity lines) 0%float.
Proof.
  unfold totalQty, Spec.totalQuantity, Spec.sum. cbn [option_map orDefault].
  rewrite fold_left_sumFrom.
  rewrite (map_ext _ _ orDefault_quantity). reflexivity.
Qed.

Lemma totalPrice_sum (ets : number -> jsstring) (lines : list OrderLine.t) :
  totalPrice ets (Some lines) =
  bind (toFixed ets (Spec.totalAmount lines) 2) (fun s => Normal (Some s)).
Proof.
  unfold totalPrice, Spec.totalAmount, Spec.sum.
  rewrite (fold_left_sumFrom
             (fun i => (orDefault (OrderLine.quantity i) 1
                        * parseFloat (orDefault (OrderLine.price i) 0))%float)).
  rewrite (map_ext _ (fun l => (Spec.quantityOf l * Spec.priceOf l)%float));
    [reflexivity|].
  intros l. rewrite parseFloat_price, orDefault_quantity. reflexivity.
Qed.

(** [toFixed] with two fraction digits never throws. *)
Lemma toFixed_two_normal (ets : number -> jsstring) (x : number) :
  exists s, toFixed ets x 2 = Normal s.
Proof.
  unfold toFixed. cbn [Z.ltb Z.compare Pos.compare Pos.compare_cont orb].
  destruct (Prim2SF x) as [s|s| |s m e]; try (eexists; reflexivity).
  destruct (mathValue m e) as [num den].
  destruct (10 ^ 21 * den <=? num); eexists; reflexivity.
Qed.

(** The integer chosen by [toFixed] is the nearest one, the larger one
    on a tie: [n - 1/2 <= 10^f * num / den < n + 1/2]. *)
Lemma nearestScaled_nearest (f num den : Z) :
  0 < den ->
  let n := nearestScaled f (num, den) in
  den * (2 * n - 1) <= 2 * num * 10 ^ f < den * (2 * n + 1).
Proof.
  intros Hd n. subst n. unfold nearestScaled.
  pose proof (Z.div_mod (2 * num * 10 ^ f + den) (2 * den) ltac:(lia)) as E.
  pose proof (Z.mod_pos_bound (2 * num * 10 ^ f + den) (2 * den) ltac:(lia)).
  nia.
Qed.


Lemma computeTotals_unfold (ets : number -> jsstring)
      (lines : list OrderLine.t) :
  computeTotals ets (Some lines) =
  bind (toFixed ets (Spec.totalAmount lines) 2)
       (fun s => Normal (orElse (Spec.totalQuantity lines) 0%float, Some s)).
Proof.
  unfold computeTotals. rewrite totalQty_sum, totalPrice_sum.
  destruct (toFixed ets (Spec.totalAmount lines) 2); reflexivity.
Qed.

Lemma computeTotals_normal (ets : number -> jsstring)
      (items : option (list OrderLine.t)) :
  exists q p, computeTotals ets items = Normal (q, p).
Proof.
  destruct items as [lines|]; [|eexists _, _; reflexivity].
  rewrite computeTotals_unfold.
  destruct (toFixed_two_normal ets (Spec.totalAmount lines)) as [s ->].
  eexists _, _. reflexivity.
Qed.


(** Where the quantity sum is truthy the two agree. *)
Lemma computeTotals_meets_spec (ets : number -> jsstring)
      (lines : list OrderLine.t) :
  ToBoolean (Spec.totalQuantity lines) = true ->
  computeTotals ets (Some lines) = Spec.totals ets lines.
Proof.
  intros H. rewrite computeTotals_unfold.
  unfold Spec.totals, orElse. rewrite H. reflexivity.
Qed.

(** An order without [items] shows 0 and no price. *)
Lemma computeTotals_absent (ets : number -> jsstring) :
  computeTotals ets None = Normal (0%float, None).
Proof. reflexivity. Qed.

(** C5: the lines [{quantity: 2, price: 10}, {quantity: 1, price: 5.5}]
    total 3 items and ["25.50"], whatever items they refer to. *)
Theorem computeTotals_example (ets : number -> jsstring) (id1 id2 : jsstring) :
  computeTotals ets (Some [Sample.line id1 2 10; Sample.line id2 1 5.5])
  = Normal (3%float, Some (lit "25.50")).
Proof. reflexivity. Qed.

(** C8: the three operations run to their end, but not every invalid
    input is replaced by a safe default.  Selecting two items, typing the
    raw quantity ["-5"] for the first and computing the totals raises no
    error, and the negative quantity is stored and summed as typed: the
    card would read -4 items and a total of ["-44.50"]. *)
Theorem composer_negative_quantity_unsanitized (ets : number -> jsstring) :
  let st :=
    updateItemQty (lit "a1") (lit "-5")
      (toggleItemInOrder Sample.ink
         (toggleItemInOrder Sample.pen (Sample.composing []))) in
  orderItems st
  = [Sample.line (lit "a1") (-5) 10; Sample.line (lit "b2") 1 5.5]
  /\ computeTotals ets (Some (orderItems st))
     = Normal ((-4)%float, Some (lit "-44.50"))
  /\ (-4 <? 0)%float = true.
Proof. repeat split; reflexivity. Qed.

(** ** What the composer shows: check boxes and quantity fields *)

Lemma find_filter_implied {A} (p q : A -> bool) (l : list A) :
  (forall x, p x = true -> q x = true) ->
  find p (filter q l) = find p l.
Proof.
  intros H. induction l as [|x r IH]; simpl; [reflexivity|].
  destruct (p x) eqn:Px.
  - rewrite (H x Px). simpl. rewrite Px. reflexivity.
  - destruct (q x); simpl; [rewrite Px|]; exact IH.
Qed.

Lemma find_snoc_miss {A} (p : A -> bool) (l : list A) (x : A) :
  p x = false -> find p (l ++ [x]) = find p l.
Proof.
  intros Hx. induction l as [|y r IH]; simpl; [rewrite Hx; reflexivity|].
  destruct (p y); [reflexivity | exact IH].
Qed.

Lemma find_snoc_hit {A} (p : A -> bool) (l : list A) (x : A) :
  find p l = None -> p x = true -> find p (l ++ [x]) = Some x.
Proof.
  intros Hl Hx. induction l as [|y r IH]; simpl in *; [rewrite Hx; reflexivity|].
  destruct (p y); [discriminate | exact (IH Hl)].
Qed.

Lemma find_filter_excluded {A} (p : A -> bool) (l : list A) :
  find p (filter (fun x => negb (p x)) l) = None.
Proof.
  induction l as [|x r IH]; simpl; [reflexivity|].
  destruct (p x) eqn:Px; simpl; [exact IH | rewrite Px; exact IH].
Qed.

Lemma find_map_stable {A} (p : A -> bool) (f : A -> A) (l : list A) :
  (forall x, p (f x) = p x) ->
  find p (map f l) = option_map f (find p l).
Proof.
  intros H. induction l as [|x r IH]; simpl; [reflexivity|].
  rewrite H. destruct (p x); [reflexivity | exact IH].
Qed.

Lemma orElse_idem (x d : number) :
  ToBoolean d = true -> orElse (orElse x d) d = orElse x d.
Proof.
  intros Hd. unfold orElse at 1. rewrite (orElse_truthy x d Hd). reflexivity.
Qed.

Lemma checked_true_iff (it : Item.t) (st : State) :
  checked it st = true <->
  exists l, In l (orderItems st) /\ OrderLine.itemMongoId l = Item._id it.
Proof.
  unfold checked. split.
  - destruct (find _ _) as [l|] eqn:E; [|discriminate]. intros _.
    apply find_some in E. destruct E as [Hl E].
    exists l. split; [exact Hl | apply strictEq_true_iff, E].
  - intros H. destruct (find_refersTo_some it _ H) as [x ->]. reflexivity.
Qed.

Lemma checked_false_iff (it : Item.t) (st : State) :
  checked it st = false <->
  forall l, In l (orderItems st) -> OrderLine.itemMongoId l <> Item._id it.
Proof.
  rewrite <- find_refersTo_none. unfold checked.
  destruct (find _ _); split; congruence.
Qed.

(** X1: a toggle flips the item's check box.  Un-checking removes the
    item's quantity field; checking brings it up reading 1. *)
Theorem toggle_flips_checkbox (it : Item.t) (st : State) :
  checked it (toggleItemInOrder it st) = negb (checked it st)
  /\ quantityField it (toggleItemInOrder it st)
     = if checked it st then None else Some 1%float.
Proof.
  unfold quantityField, checked, shownQuantity, toggleItemInOrder.
  destruct (find _ (orderItems st)) as [x|] eqn:E;
    cbn [orderItems setOrderItems negb].
  - rewrite (find_filter_excluded
               (fun i => strictEq (OrderLine.itemMongoId i) (Item._id it))).
    split; reflexivity.
  - rewrite (find_snoc_hit _ _ _ E) by (cbn; apply strictEq_refl).
    split; reflexivity.
Qed.

(** X2: a toggle leaves the check box and the quantity field of every
    item with another [_id] as they were. *)
Theorem toggle_keeps_other_items (it other : Item.t) (st : State) :
  Item._id other <> Item._id it ->
  checked other (toggleItemInOrder it st) = checked other st
  /\ shownQuantity other (toggleItemInOrder it st) = shownQuantity other st.
Proof.
  intros Hne.
  assert (E : find (fun i => strictEq (OrderLine.itemMongoId i) (Item._id other))
                   (orderItems (toggleItemInOrder it st))
              = find (fun i => strictEq (OrderLine.itemMongoId i) (Item._id other))
                     (orderItems st)).
  { unfold toggleItemInOrder.
    destruct (find _ (orderItems st)) as [x|]; cbn [orderItems setOrderItems].
    - apply find_filter_implied. intros l Hl.
      apply strictEq_true_iff in Hl. apply negb_true_iff, strictEq_false_iff.
      congruence.
    - apply find_snoc_miss. cbn. apply strictEq_false_iff. congruence. }
  unfold checked, shownQuantity. rewrite E. split; reflexivity.
Qed.

Lemma toggle_keeps_other_items_witness :
  checked Sample.ink
    (toggleItemInOrder Sample.pen
       (Sample.composing [Sample.line (lit "a1") 3 10;
                          Sample.line (lit "b2") 4 5.5])) = true
  /\ shownQuantity Sample.ink
       (toggleItemInOrder Sample.pen
          (Sample.composing [Sample.line (lit "a1") 3 10;
                             Sample.line (lit "b2") 4 5.5])) = 4%float.
Proof.
  destruct (toggle_keeps_other_items Sample.pen Sample.ink
              (Sample.composing [Sample.line (lit "a1") 3 10;
                                 Sample.line (lit "b2") 4 5.5]))
    as [H1 H2].
  - vm_compute. discriminate.
  - rewrite H1, H2. split; reflexivity.
Defined.

(** X3: once a selected item's quantity is updated, its quantity field
    reads the stored value [parseInt(qty) || 1]. *)
Theorem updateItemQty_shows_coerced (it : Item.t) (qty : jsstring)
        (st : State) :
  checked it st = true ->
  shownQuantity it (updateItemQty (Item._id it) qty st)
  = orElse (parseInt qty) 1%float.
Proof.
  intros Hc. unfold checked in Hc. unfold shownQuantity.
  rewrite updateItemQty_lines.
  rewrite (find_map_stable
             (fun i => strictEq (OrderLine.itemMongoId i) (Item._id it))).
  - destruct (find _ (orderItems st)) as [l|] eqn:E; [|discriminate].
    apply find_some in E. destruct E as [_ E]. cbn [option_map].
    rewrite E. cbn [OrderLine.quantity orDefault].
    apply orElse_idem. reflexivity.
  - intros x.
    destruct (strictEq (OrderLine.itemMongoId x) (Item._id it)) eqn:Ex;
      cbn [OrderLine.itemMongoId]; rewrite ?Ex; reflexivity.
Qed.

Lemma updateItemQty_shows_coerced_witness :
  shownQuantity Sample.ink
    (updateItemQty (lit "b2") (lit "7")
       (Sample.composing [Sample.line (lit "a1") 3 10;
                          Sample.line (lit "b2") 4 5.5])) = 7%float.
Proof.
  apply (updateItemQty_shows_coerced Sample.ink (lit "7")
           (Sample.composing [Sample.line (lit "a1") 3 10;
                              Sample.line (lit "b2") 4 5.5])).
  reflexivity.
Defined.

(** X4: a quantity update never checks or unchecks an item, keeps the
    number of lines and their prices, and leaves the quantity field of
    every item with another [_id] as it was. *)
Theorem updateItemQty_keeps_view (id qty : jsstring) (st : State) :
  (forall it, checked it (updateItemQty id qty st) = checked it st)
  /\ (forall it, Item._id it <> id ->
        shownQuantity it (updateItemQty id qty st) = shownQuantity it st)
  /\ map OrderLine.price (orderItems (updateItemQty id qty st))
     = map OrderLine.price (orderItems st)
  /\ List.length (orderItems (updateItemQty id qty st))
     = List.length (orderItems st).
Proof.
  assert (F : forall it,
           find (fun i => strictEq (OrderLine.itemMongoId i) (Item._id it))
                (orderItems (updateItemQty id qty st))
           = option_map
               (fun i =>
                  if strictEq (OrderLine.itemMongoId i) id
                  then {| OrderLine.itemMongoId := OrderLine.itemMongoId i;
                          OrderLine.quantity :=
                            Some (orElse (parseInt qty) 1%float);
                          OrderLine.price := OrderLine.price i |}
                  else i)
               (find (fun i => strictEq (OrderLine.itemMongoId i) (Item._id it))
                     (orderItems st))).
  { intros it. rewrite updateItemQty_lines.
    apply (find_map_stable
             (fun i => strictEq (OrderLine.itemMongoId i) (Item._id it))).
    intros x. destruct (strictEq (OrderLine.itemMongoId x) id); reflexivity. }
  split; [|split; [|split]].
  - intros it. unfold checked. rewrite F.
    destruct (find _ (orderItems st)); reflexivity.
  - intros it Hne. unfold shownQuantity. rewrite F.
    destruct (find _ (orderItems st)) as [l|] eqn:E; [|reflexivity].
    apply find_some in E. destruct E as [_ E].
    apply strictEq_true_iff in E. cbn [option_map].
    assert (N : strictEq (OrderLine.itemMongoId l) id = false)
      by (apply strictEq_false_iff; congruence).
    rewrite N. reflexivity.
  - rewrite updateItemQty_lines, map_map. apply map_ext.
    intros i. destruct (strictEq _ _); reflexivity.
  - rewrite updateItemQty_lines. apply length_map.
Qed.

Lemma updateItemQty_keeps_view_witness :
  shownQuantity Sample.pen
    (updateItemQty (lit "b2") (lit "7")
       (Sample.composing [Sample.line (lit "a1") 3 10;
                          Sample.line (lit "b2") 4 5.5])) = 3%float.
Proof.
  destruct (updateItemQty_keeps_view (lit "b2") (lit "7")
              (Sample.composing [Sample.line (lit "a1") 3 10;
                                 Sample.line (lit "b2") 4 5.5]))
    as [_ [H _]].
  rewrite (H Sample.pen); [reflexivity|]. vm_compute. discriminate.
Defined.

(** ** How quantity updates compose *)

Lemma map_id_on {A} (f : A -> A) (l : list A) :
  (forall x, In x l -> f x = x) -> map f l = l.
Proof.
  induction l as [|x r IH]; intros H; simpl; [reflexivity|].
  rewrite H by (left; reflexivity). f_equal. apply IH.
  intros y Hy. apply H. right; exact Hy.
Qed.

(** X5: a quantity update for an [id] that no selected line refers to
    changes nothing. *)
Theorem updateItemQty_unselected_noop (id qty : jsstring) (st : State) :
  (forall l, In l (orderItems st) -> OrderLine.itemMongoId l <> id) ->
  updateItemQty id qty st = st.
Proof.
  intros H. unfold updateItemQty. rewrite map_id_on.
  - apply setOrderItems_same.
  - intros l Hl. apply H, strictEq_false_iff in Hl. rewrite Hl. reflexivity.
Qed.

Lemma updateItemQty_unselected_noop_witness :
  updateItemQty (lit "zz") (lit "9")
    (Sample.composing [Sample.line (lit "a1") 3 10])
  = Sample.composing [Sample.line (lit "a1") 3 10].
Proof.
  apply (updateItemQty_unselected_noop (lit "zz") (lit "9")
           (Sample.composing [Sample.line (lit "a1") 3 10])).
  intros l [<-|[]]. vm_compute. discriminate.
Defined.

(** X6: of two quantity updates for the same [id] only the second
    counts; in particular repeating an update changes nothing more. *)
Theorem updateItemQty_last_write_wins (id q1 q2 : jsstring) (st : State) :
  updateItemQty id q2 (updateItemQty id q1 st) = updateItemQty id q2 st.
Proof.
  unfold updateItemQty. cbn [orderItems setOrderItems].
  rewrite setOrderItems_twice, map_map. f_equal. apply map_ext.
  intros i. destruct (strictEq (OrderLine.itemMongoId i) id) eqn:E;
    cbn [OrderLine.itemMongoId OrderLine.price]; rewrite E; reflexivity.
Qed.

(** X7: quantity updates for two different [id]s can be made in either
    order. *)
Theorem updateItemQty_commute (id1 id2 q1 q2 : jsstring) (st : State) :
  id1 <> id2 ->
  updateItemQty id1 q1 (updateItemQty id2 q2 st)
  = updateItemQty id2 q2 (updateItemQty id1 q1 st).
Proof.
  intros Hne. unfold updateItemQty. cbn [orderItems setOrderItems].
  rewrite !setOrderItems_twice, !map_map. f_equal. apply map_ext.
  intros i.
  destruct (strictEq (OrderLine.itemMongoId i) id1) eqn:E1;
    destruct (strictEq (OrderLine.itemMongoId i) id2) eqn:E2;
    cbn [OrderLine.itemMongoId OrderLine.price]; rewrite ?E1, ?E2;
    try reflexivity.
  apply strictEq_true_iff in E1, E2. congruence.
Qed.

Lemma updateItemQty_commute_witness :
  updateItemQty (lit "a1") (lit "2")
    (updateItemQty (lit "b2") (lit "7")
       (Sample.composing [Sample.line (lit "a1") 3 10;
                          Sample.line (lit "b2") 4 5.5]))
  = Sample.composing [Sample.line (lit "a1") 2 10;
                      Sample.line (lit "b2") 7 5.5]
  /\ updateItemQty (lit "b2") (lit "7")
       (updateItemQty (lit "a1") (lit "2")
          (Sample.composing [Sample.line (lit "a1") 3 10;
                             Sample.line (lit "b2") 4 5.5]))
     = Sample.composing [Sample.line (lit "a1") 2 10;
                         Sample.line (lit "b2") 7 5.5].
Proof.
  rewrite <- (updateItemQty_commute (lit "a1") (lit "b2") (lit "2") (lit "7")
                (Sample.composing [Sample.line (lit "a1") 3 10;
                                   Sample.line (lit "b2") 4 5.5])).
  - split; reflexivity.
  - vm_compute. discriminate.
Defined.

(** ** Toggling a selected item twice, and counting lines *)

Lemma toggle_twice_present_witness :
  orderItems
    (toggleItemInOrder Sample.pen
       (toggleItemInOrder Sample.pen
          (Sample.composing [Sample.line (lit "a1") 3 10;
                             Sample.line (lit "b2") 4 5.5])))
  = [Sample.line (lit "b2") 4 5.5; Sample.line (lit "a1") 1 10].
Proof.
  rewrite (toggle_twice_present Sample.pen
             (Sample.composing [Sample.line (lit "a1") 3 10;
                                Sample.line (lit "b2") 4 5.5])).
  - reflexivity.
  - exists (Sample.line (lit "a1") 3 10). split; [left|]; reflexivity.
Defined.

Lemma filter_others_absent_id (id : jsstring) (lines : list OrderLine.t) :
  (forall l, In l lines -> OrderLine.itemMongoId l <> id) ->
  filter (fun l => negb (strictEq (OrderLine.itemMongoId l) id)) lines = lines.
Proof.
  induction lines as [|x r IH]; intros H; simpl; [reflexivity|].
  assert (Hx : strictEq (OrderLine.itemMongoId x) id = false)
    by (apply strictEq_false_iff, H; left; reflexivity).
  rewrite Hx; simpl. f_equal. apply IH.
  intros l Hl. apply H. right; exact Hl.
Qed.

Lemma filter_unique_length (id : jsstring) (lines : list OrderLine.t) :
  uniqueRefs lines ->
  (exists l, In l lines /\ OrderLine.itemMongoId l = id) ->
  S (List.length
       (filter (fun l => negb (strictEq (OrderLine.itemMongoId l) id)) lines))
  = List.length lines.
Proof.
  unfold uniqueRefs. induction lines as [|x r IH]; intros Hu [l [Hl Hid]];
    [destruct Hl|].
  cbn [map] in Hu. inversion Hu as [|? ? Hx Hr]; subst.
  cbn [filter]. destruct (strictEq (OrderLine.itemMongoId x)
                                   (OrderLine.itemMongoId l)) eqn:E.
  - cbn [negb List.length]. f_equal.
    apply strictEq_true_iff in E.
    rewrite (filter_others_absent_id (OrderLine.itemMongoId l) r);
      [reflexivity|].
    intros y Hy Ey. apply Hx. rewrite E, <- Ey. apply in_map, Hy.
  - cbn [negb List.length]. f_equal. apply IH; [exact Hr|].
    destruct Hl as [->|Hl]; [rewrite strictEq_refl in E; discriminate|].
    exists l. split; [exact Hl | reflexivity].
Qed.

(** X9: while every item reference is unique, a toggle changes the
    number of selected lines by exactly one: one fewer for a checked
    item, one more for an unchecked one. *)
Theorem toggle_changes_count_by_one (it : Item.t) (st : State) :
  uniqueRefs (orderItems st) ->
  (checked it st = true ->
     S (List.length (orderItems (toggleItemInOrder it st)))
     = List.length (orderItems st))
  /\ (checked it st = false ->
        List.length (orderItems (toggleItemInOrder it st))
        = S (List.length (orderItems st))).
Proof.
  intros Hu. split; intros Hc.
  - apply checked_true_iff in Hc.
    rewrite (toggle_present it st Hc). cbn [orderItems setOrderItems].
    apply filter_unique_length; assumption.
  - rewrite (toggle_absent it st (proj1 (checked_false_iff it st) Hc)).
    cbn [orderItems setOrderItems].
    rewrite length_app. cbn. lia.
Qed.

Lemma toggle_changes_count_by_one_witness :
  List.length
    (orderItems
       (toggleItemInOrder Sample.pen
          (Sample.composing [Sample.line (lit "a1") 3 10;
                             Sample.line (lit "b2") 4 5.5]))) = 1%nat
  /\ List.length
       (orderItems
          (toggleItemInOrder Sample.pen
             (Sample.composing [Sample.line (lit "b2") 4 5.5]))) = 2%nat.
Proof.
  assert (U : forall a b : jsstring, a <> b -> NoDup [a; b]).
  { intros a b Hab. constructor; [intros [E|[]]; congruence|].
    constructor; [intros []|constructor]. }
  split.
  - destruct (toggle_changes_count_by_one Sample.pen
                (Sample.composing [Sample.line (lit "a1") 3 10;
                                   Sample.line (lit "b2") 4 5.5]))
      as [H _].
    + apply U. vm_compute. discriminate.
    + apply eq_add_S. exact (H eq_refl).
  - destruct (toggle_changes_count_by_one Sample.pen
                (Sample.composing [Sample.line (lit "b2") 4 5.5]))
      as [_ H].
    + constructor; [intros []|constructor].
    + exact (H eq_refl).
Defined.

(** ** Saving an order *)

Lemma createOrder_passes (now : Z) (response : option Order.t) (st : State) :
  OrderForm.customerId (orderForm st) <> [] ->
  orderItems st <> [] ->
  createOrder now response st =
  let req :=
    {| method := lit "POST"; url := lit "/api/orders"; bearer := token st;
       payload :=
         OrderBody (OrderForm.customerId (orderForm st))
                   (generateCode (lit "ORD_")
                                 (OrderForm.orderId (orderForm st)) now)
                   (OrderForm.status (orderForm st)) (orderItems st) |} in
  match response with
  | None => (st, [req])
  | Some data =>
      (setOrderItems []
         (setOrderForm
            {| OrderForm.customerId := []; OrderForm.orderId := [];
               OrderForm.status := lit "Pending" |}
            (setOrders (data :: orders st) st)),
       [req])
  end.
Proof.
  intros Hc Hl. unfold createOrder.
  destruct (OrderForm.customerId (orderForm st)) as [|c cs]; [congruence|].
  destruct (orderItems st) as [|l ls]; [congruence|].
  reflexivity.
Qed.

(** X10: once an order has been saved, pressing save again sends
    nothing: the form and the selection were reset, so the guard stops
    the second call. *)
Theorem createOrder_not_repeated (now1 now2 : Z) (saved : Order.t)
        (response2 : option Order.t) (st : State) :
  createOrder now2 response2 (fst (createOrder now1 (Some saved) st))
  = (fst (createOrder now1 (Some saved) st), []).
Proof.
  unfold createOrder at 2 3.
  destruct (negb (truthyString (OrderForm.customerId (orderForm st)))
            || (List.length (orderItems st) =? 0)%nat) eqn:G;
    cbn [fst].
  - unfold createOrder. rewrite G. reflexivity.
  - reflexivity.
Qed.

(** X11: past the guard, a resolved save puts the answered order in
    front of the list, resets the order form to an empty one with status
    Pending, clears the selection, and sends one POST carrying the token,
    the chosen customer and status and the selected lines as they are;
    the other state cells do not change. *)
Theorem createOrder_saves (now : Z) (saved : Order.t) (st : State) :
  OrderForm.customerId (orderForm st) <> [] ->
  orderItems st <> [] ->
  let r := createOrder now (Some saved) st in
  orders (fst r) = saved :: orders st
  /\ orderItems (fst r) = []
  /\ orderForm (fst r) =
     {| OrderForm.customerId := []; OrderForm.orderId := [];
        OrderForm.status := lit "Pending" |}
  /\ token (fst r) = token st
  /\ customers (fst r) = customers st
  /\ items (fst r) = items st
  /\ customerForm (fst r) = customerForm st
  /\ itemForm (fst r) = itemForm st
  /\ exists orderId,
       snd r = [ {| method := lit "POST"; url := lit "/api/orders";
                    bearer := token st;
                    payload := OrderBody (OrderForm.customerId (orderForm st))
                                         orderId
                                         (OrderForm.status (orderForm st))
                                         (orderItems st) |} ].
Proof.
  intros Hc Hl r. subst r. rewrite (createOrder_passes now _ st Hc Hl).
  cbn. repeat split. eexists. reflexivity.
Qed.

Lemma createOrder_saves_witness :
  orders (fst (createOrder 1700000000000 (Some Sample.order2)
                 (Sample.composing [Sample.line (lit "a1") 3 10])))
  = [Sample.order2; Sample.order1; Sample.order2]
  /\ orderItems (fst (createOrder 1700000000000 (Some Sample.order2)
                        (Sample.composing [Sample.line (lit "a1") 3 10])))
     = [].
Proof.
  destruct (createOrder_saves 1700000000000 Sample.order2
              (Sample.composing [Sample.line (lit "a1") 3 10]))
    as [H1 [H2 _]]; [discriminate | discriminate |].
  split; [exact H1 | exact H2].
Defined.

(** X12: past the guard, a save whose request or answer fails has
    still sent its one request, and leaves every state cell, the form
    and the selection included, as it was. *)
Theorem createOrder_failed_keeps_state (now : Z) (st : State) :
  OrderForm.customerId (orderForm st) <> [] ->
  orderItems st <> [] ->
  exists orderId,
    createOrder now None st
    = (st, [ {| method := lit "POST"; url := lit "/api/orders";
                bearer := token st;
                payload := OrderBody (OrderForm.customerId (orderForm st))
                                     orderId
                                     (OrderForm.status (orderForm st))
                                     (orderItems st) |} ]).
Proof.
  intros Hc Hl. rewrite (createOrder_passes now _ st Hc Hl).
  eexists. reflexivity.
Qed.

Lemma createOrder_failed_keeps_state_witness :
  fst (createOrder 1700000000000 None
         (Sample.composing [Sample.line (lit "a1") 3 10]))
  = Sample.composing [Sample.line (lit "a1") 3 10].
Proof.
  destruct (createOrder_failed_keeps_state 1700000000000
              (Sample.composing [Sample.line (lit "a1") 3 10]))
    as [orderId H]; [discriminate | discriminate |].
  rewrite H. reflexivity.
Defined.

(** ** Codes that reach the server *)

Lemma generateCode_not_blank (prefix supplied : jsstring) (now : Z) :
  ~ blank (generateCode prefix supplied now).
Proof.
  unfold generateCode.
  destruct (truthyString supplied && negb (strictEq (trim supplied) []))
    eqn:E.
  - apply andb_true_iff in E. destruct E as [_ E].
    apply negb_true_iff, strictEq_false_iff in E.
    intros B. apply E, trim_nil_iff, B.
  - apply not_blank_app_r, integerToString_not_blank.
Qed.

(** X13: no blank code is ever sent: in every request of [createItem]
    the [itemId] of the body, and in every request of [createOrder] the
    [orderId] of the body, holds a character that is not white space. *)
Theorem sent_codes_not_blank (now : Z) (st : State) :
  (forall response req,
     In req (snd (createItem now response st)) ->
     exists form, payload req = ItemBody form
                  /\ ~ blank (ItemForm.itemId form))
  /\ (forall response req,
        In req (snd (createOrder now response st)) ->
        exists customerId orderId status lines,
          payload req = OrderBody customerId orderId status lines
          /\ ~ blank orderId).
Proof.
  split; intros response req Hreq.
  - unfold createItem in Hreq.
    assert (E : req =
      {| method := lit "POST"; url := lit "/api/items"; bearer := token st;
         payload :=
           ItemBody
             {| ItemForm.name := ItemForm.name (itemForm st);
                ItemForm.price := ItemForm.price (itemForm st);
                ItemForm.cost := ItemForm.cost (itemForm st);
                ItemForm.photo := ItemForm.photo (itemForm st);
                ItemForm.itemId :=
                  generateCode (lit "ITEM_")
                               (ItemForm.itemId (itemForm st)) now |} |}).
    { destruct response; destruct Hreq as [<-|[]]; reflexivity. }
    rewrite E. eexists. split; [reflexivity|].
    apply generateCode_not_blank.
  - unfold createOrder in Hreq.
    destruct (_ || _); [destruct Hreq|].
    assert (E : payload req =
                OrderBody (OrderForm.customerId (orderForm st))
                          (generateCode (lit "ORD_")
                             (OrderForm.orderId (orderForm st)) now)
                          (OrderForm.status (orderForm st)) (orderItems st)).
    { destruct response; destruct Hreq as [<-|[]]; reflexivity. }
    rewrite E. eexists _, _, _, _. split; [reflexivity|].
    apply generateCode_not_blank.
Qed.

Lemma sent_codes_not_blank_witness :
  exists form,
    map payload (snd (createItem 1700000000000 None (Sample.composing [])))
    = [ItemBody form]
    /\ ~ blank (ItemForm.itemId form).
Proof.
  destruct (sent_codes_not_blank 1700000000000 (Sample.composing []))
    as [H _].
  destruct (H None
              {| method := lit "POST"; url := lit "/api/items";
                 bearer := lit "t";
                 payload :=
                   ItemBody
                     {| ItemForm.name := []; ItemForm.price := [];
                        ItemForm.cost := []; ItemForm.photo := [];
                        ItemForm.itemId := lit "ITEM_1700000000000" |} |})
    as [form [E B]]; [left; reflexivity|].
  exists form. split; [|exact B].
  cbn [payload] in E. rewrite <- E. reflexivity.
Defined.

(** ** Saving an item and a customer *)

(** X14: [createItem] has no guard: whatever the form holds, even
    nothing, one POST goes out with the token and the name, price, cost
    and photo as typed.  A resolved answer is put in front of the catalog
    and the item form is emptied; a failed one changes nothing; neither
    touches the orders, the order form or the selection. *)
Theorem createItem_always_sends (now : Z) (response : option Item.t)
        (st : State) :
  (exists form,
     snd (createItem now response st)
     = [ {| method := lit "POST"; url := lit "/api/items";
            bearer := token st; payload := ItemBody form |} ]
     /\ ItemForm.name form = ItemForm.name (itemForm st)
     /\ ItemForm.price form = ItemForm.price (itemForm st)
     /\ ItemForm.cost form = ItemForm.cost (itemForm st)
     /\ ItemForm.photo form = ItemForm.photo (itemForm st))
  /\ items (fst (createItem now response st))
     = match response with
       | Some item => item :: items st
       | None => items st
       end
  /\ itemForm (fst (createItem now response st))
     = match response with
       | Some _ =>
           {| ItemForm.name := []; ItemForm.price := []; ItemForm.cost := [];
              ItemForm.photo := []; ItemForm.itemId := [] |}
       | None => itemForm st
       end
  /\ orders (fst (createItem now response st)) = orders st
  /\ orderForm (fst (createItem now response st)) = orderForm st
  /\ orderItems (fst (createItem now response st)) = orderItems st
  /\ customers (fst (createItem now response st)) = customers st
  /\ token (fst (createItem now response st)) = token st.
Proof.
  unfold createItem. destruct response; cbn.
  - split; [eexists; repeat split|repeat split].
  - split; [eexists; repeat split|repeat split].
Qed.

(** X15: with an empty name or an empty email, [createCustomer] sends
    nothing and changes nothing. *)
Theorem createCustomer_guard (response : option Customer.t) (st : State) :
  CustomerForm.name (customerForm st) = []
  \/ CustomerForm.email (customerForm st) = [] ->
  createCustomer response st = (st, []).
Proof.
  intros [H|H]; unfold createCustomer; rewrite H; cbn.
  - reflexivity.
  - rewrite orb_true_r. reflexivity.
Qed.

Lemma createCustomer_guard_witness :
  createCustomer None (Sample.composing []) = (Sample.composing [], []).
Proof.
  apply (createCustomer_guard None (Sample.composing [])).
  left. reflexivity.
Defined.

(** X16: with a name and an email, a resolved [createCustomer] sends
    the form as typed with the token, puts the answered customer in front
    of the list and empties the form; from then on every order of that
    customer is labelled with the customer's name, when it has one, even
    if an older entry has the same [_id]. *)
Theorem createCustomer_saves (saved : Customer.t) (st : State) :
  CustomerForm.name (customerForm st) <> [] ->
  CustomerForm.email (customerForm st) <> [] ->
  let r := createCustomer (Some saved) st in
  snd r = [PostCustomer (token st) (customerForm st)]
  /\ customers (fst r) = saved :: customers st
  /\ customerForm (fst r) =
     {| CustomerForm.name := []; CustomerForm.email := [];
        CustomerForm.phone := []; CustomerForm.address := [] |}
  /\ orders (fst r) = orders st
  /\ orderItems (fst r) = orderItems st
  /\ orderForm (fst r) = orderForm st
  /\ (forall o, Order.customerId o = Customer._id saved ->
                Customer.name saved <> [] ->
                customerLabel o (fst r) = Customer.name saved).
Proof.
  intros Hn He r. subst r. unfold createCustomer.
  destruct (CustomerForm.name (customerForm st)) as [|c cs] eqn:En;
    [congruence|].
  destruct (CustomerForm.email (customerForm st)) as [|e es] eqn:Ee;
    [congruence|].
  cbn. repeat split.
  intros o Ho Hname. unfold customerLabel. cbn.
  rewrite Ho, strictEq_refl.
  destruct (Customer.name saved); [congruence | reflexivity].
Qed.

Lemma createCustomer_saves_witness :
  customers (fst (createCustomer (Some Scenario.ann) Scenario.registering))
  = [Scenario.ann]
  /\ customerLabel Sample.order1
       (fst (createCustomer (Some Scenario.ann) Scenario.registering))
     = lit "Ann".
Proof.
  destruct (createCustomer_saves Scenario.ann Scenario.registering)
    as [_ [H [_ [_ [_ [_ L]]]]]]; [discriminate | discriminate |].
  split; [exact H|].
  apply L; [reflexivity | discriminate].
Defined.

(** ** Status changes and the order cards *)

Lemma updateOrderStatus_orders (orderId newStatus : jsstring)
      (delivered : bool) (st : State) :
  orders (fst (updateOrderStatus orderId newStatus delivered st)) =
  if delivered then
    map (fun o =>
           if strictEq (Order._id o) orderId
           then {| Order._id := Order._id o;
                   Order.orderId := Order.orderId o;
                   Order.customerId := Order.customerId o;
                   Order.status := newStatus;
                   Order.items := Order.items o |}
           else o)
        (orders st)
  else orders st.
Proof. unfold updateOrderStatus. destruct delivered; reflexivity. Qed.

(** X17: a status change, delivered or not, never reorders, adds or
    drops a card and never touches an order's identity, code, customer or
    lines: every card keeps its totals and its customer label, and the
    selection and the forms stay as they are. *)
Theorem updateOrderStatus_keeps_cards (ets : number -> jsstring)
        (orderId newStatus : jsstring) (delivered : bool) (st : State) :
  let st' := fst (updateOrderStatus orderId newStatus delivered st) in
  map Order._id (orders st') = map Order._id (orders st)
  /\ map Order.orderId (orders st') = map Order.orderId (orders st)
  /\ map Order.items (orders st') = map Order.items (orders st)
  /\ map (fun o => computeTotals ets (Order.items o)) (orders st')
     = map (fun o => computeTotals ets (Order.items o)) (orders st)
  /\ map (fun o => customerLabel o st') (orders st')
     = map (fun o => customerLabel o st) (orders st)
  /\ orderItems st' = orderItems st
  /\ orderForm st' = orderForm st
  /\ items st' = items st.
Proof.
  intros st'.
  assert (C : customers st' = customers st)
    by (subst st'; unfold updateOrderStatus; destruct delivered; reflexivity).
  assert (P : forall (B : Type) (f : Order.t -> B),
             (forall o s,
                 f {| Order._id := Order._id o;
                      Order.orderId := Order.orderId o;
                      Order.customerId := Order.customerId o;
                      Order.status := s;
                      Order.items := Order.items o |} = f o) ->
             map f (orders st') = map f (orders st)).
  { intros B f Hf. subst st'. rewrite updateOrderStatus_orders.
    destruct delivered; [|reflexivity].
    rewrite map_map. apply map_ext. intros o.
    destruct (strictEq (Order._id o) orderId); [apply Hf | reflexivity]. }
  repeat split; try (apply P; intros; reflexivity).
  - transitivity (map (fun o => customerLabel o st) (orders st')).
    + apply map_ext. intros o. unfold customerLabel. rewrite C. reflexivity.
    + apply P. intros; reflexivity.
  - subst st'. unfold updateOrderStatus. destruct delivered; reflexivity.
  - subst st'. unfold updateOrderStatus. destruct delivered; reflexivity.
  - subst st'. unfold updateOrderStatus. destruct delivered; reflexivity.
Qed.

Lemma setOrders_same (st : State) : setOrders (orders st) st = st.
Proof. destruct st; reflexivity. Qed.

(** X18: a status change for an [_id] that no listed order has still
    sends its PATCH request, to the route named after that [_id], and
    leaves the whole state as it was. *)
Theorem updateOrderStatus_unknown_id (orderId newStatus : jsstring)
        (delivered : bool) (st : State) :
  (forall o, In o (orders st) -> Order._id o <> orderId) ->
  updateOrderStatus orderId newStatus delivered st
  = (st, [ {| method := lit "PATCH"; url := lit "/api/orders/" ++ orderId;
              bearer := token st; payload := StatusBody newStatus |} ]).
Proof.
  intros H. unfold updateOrderStatus. destruct delivered; [|reflexivity].
  rewrite map_id_on.
  - rewrite setOrders_same. reflexivity.
  - intros o Ho. apply H, strictEq_false_iff in Ho. rewrite Ho. reflexivity.
Qed.

Lemma updateOrderStatus_unknown_id_witness :
  fst (updateOrderStatus (lit "o9") (lit "Cancelled") true
         (Sample.composing []))
  = Sample.composing []
  /\ List.length (snd (updateOrderStatus (lit "o9") (lit "Cancelled") true
                         (Sample.composing []))) = 1%nat.
Proof.
  rewrite (updateOrderStatus_unknown_id (lit "o9") (lit "Cancelled") true
             (Sample.composing [])).
  - split; reflexivity.
  - intros o [<-|[<-|[]]]; vm_compute; discriminate.
Defined.

(** X19: of two delivered status changes for the same order only the
    second shows; repeating a change alters nothing more. *)
Theorem updateOrderStatus_last_write_wins (orderId s1 s2 : jsstring)
        (st : State) :
  fst (updateOrderStatus orderId s2 true
         (fst (updateOrderStatus orderId s1 true st)))
  = fst (updateOrderStatus orderId s2 true st).
Proof.
  unfold updateOrderStatus. cbn [fst orders setOrders].
  unfold setOrders. cbn. f_equal. rewrite map_map. apply map_ext.
  intros o. destruct (strictEq (Order._id o) orderId) eqn:E;
    cbn [Order._id]; rewrite E; reflexivity.
Qed.

(** ** Signing in *)

(** X20: a login that does not end with a granted token leaves the
    token and every other composer cell as they were, keeps the typed
    user name and password, shows an error message that is never empty,
    and has sent the typed credentials once. *)
Theorem handleLogin_failure (reply : loginReply) (p : Page.t) :
  (forall tok, reply <> Granted tok) ->
  let r := handleLogin reply p in
  data (fst r) = data p
  /\ username (fst r) = username p
  /\ password (fst r) = password p
  /\ authError (fst r) <> []
  /\ showsDashboard (fst r) = showsDashboard p
  /\ snd r = [PostLogin (username p) (password p)].
Proof.
  intros Hr r. subst r. destruct reply as [|error|tok].
  - cbn. repeat split. discriminate.
  - cbn. repeat split.
    destruct error as [[|c m]|]; cbn; discriminate.
  - exfalso. apply (Hr tok). reflexivity.
Qed.

Lemma handleLogin_failure_witness :
  authError (fst (handleLogin (Refused (Some [])) Scenario.loginForm))
  = lit "Invalid credentials"
  /\ showsDashboard (fst (handleLogin (Refused (Some [])) Scenario.loginForm))
     = false.
Proof.
  destruct (handleLogin_failure (Refused (Some [])) Scenario.loginForm)
    as [_ [_ [_ [_ [H _]]]]]; [discriminate|].
  split; [reflexivity | exact H].
Defined.

(** A granted login stores the token, empties the user name, the
    password and the error message, shows the dashboard exactly when the
    token is not empty, and changes no list, form or selection. *)
Theorem handleLogin_success (tok : jsstring) (p : Page.t) :
  let r := handleLogin (Granted tok) p in
  token (data (fst r)) = tok
  /\ username (fst r) = []
  /\ password (fst r) = []
  /\ authError (fst r) = []
  /\ showsDashboard (fst r) = truthyString tok
  /\ data (fst r) = setToken tok (data p)
  /\ orderItems (data (fst r)) = orderItems (data p)
  /\ orders (data (fst r)) = orders (data p)
  /\ snd r = [PostLogin (username p) (password p)].
Proof. cbn. repeat split. Qed.

(** ** Loading the lists *)

(** X21: without a token the effect sends nothing and changes
    nothing, whatever tab is open. *)
Theorem fetchData_without_token (srv : server) (p : Page.t) :
  token (data p) = [] -> fetchData srv p = (p, []).
Proof. intros H. unfold fetchData. rewrite H. reflexivity. Qed.

Lemma fetchData_without_token_witness :
  fetchData Scenario.answers Scenario.loginForm = (Scenario.loginForm, []).
Proof.
  apply (fetchData_without_token Scenario.answers Scenario.loginForm).
  reflexivity.
Defined.

Lemma fetchData_cases (srv : server) (p : Page.t) :
  let st' := data (fst (fetchData srv p)) in
  st' = data p
  \/ (page p = lit "customers"
      /\ exists l, customersRoute srv = Some l /\ st' = setCustomers l (data p))
  \/ (page p = lit "items"
      /\ exists l, itemsRoute srv = Some l /\ st' = setItems l (data p))
  \/ (page p = lit "orders"
      /\ exists l, ordersRoute srv = Some l /\ st' = setOrders l (data p)).
Proof.
  unfold fetchData.
  destruct (negb (truthyString (token (data p)))); [left; reflexivity|].
  destruct (strictEq (page p) (lit "customers")) eqn:Ec.
  { apply strictEq_true_iff in Ec.
    destruct (customersRoute srv) as [l|] eqn:R; cbn; [|left; reflexivity].
    right; left. split; [exact Ec | exists l; split; reflexivity]. }
  destruct (strictEq (page p) (lit "items")) eqn:Ei.
  { apply strictEq_true_iff in Ei.
    destruct (itemsRoute srv) as [l|] eqn:R; cbn; [|left; reflexivity].
    right; right; left. split; [exact Ei | exists l; split; reflexivity]. }
  destruct (strictEq (page p) (lit "orders")) eqn:Eo.
  { apply strictEq_true_iff in Eo.
    destruct (ordersRoute srv) as [l|] eqn:R; cbn; [|left; reflexivity].
    right; right; right. split; [exact Eo | exists l; split; reflexivity]. }
  left. reflexivity.
Qed.

(** X22: the loading effect never touches the token, the forms or the
    selection, sends at most one request, and replaces a list only when
    the open tab is the one of that list: the customers only on
    [customers], the catalog only on [items], the orders only on
    [orders]. *)
Theorem fetchData_frame (srv : server) (p : Page.t) :
  let r := fetchData srv p in
  token (data (fst r)) = token (data p)
  /\ orderItems (data (fst r)) = orderItems (data p)
  /\ orderForm (data (fst r)) = orderForm (data p)
  /\ itemForm (data (fst r)) = itemForm (data p)
  /\ customerForm (data (fst r)) = customerForm (data p)
  /\ page (fst r) = page p
  /\ (List.length (snd r) <= 1)%nat
  /\ (page p <> lit "customers" ->
        customers (data (fst r)) = customers (data p))
  /\ (page p <> lit "items" -> items (data (fst r)) = items (data p))
  /\ (page p <> lit "orders" -> orders (data (fst r)) = orders (data p)).
Proof.
  intros r. subst r.
  assert (Hpage : page (fst (fetchData srv p)) = page p).
  { unfold fetchData. repeat (destruct (_ : bool); try reflexivity). }
  assert (Hlen : (List.length (snd (fetchData srv p)) <= 1)%nat).
  { unfold fetchData. repeat (destruct (_ : bool); cbn; try lia). }
  destruct (fetchData_cases srv p)
    as [E|[[Hp [l [_ E]]]|[[Hp [l [_ E]]]|[Hp [l [_ E]]]]]];
    rewrite E; cbn; repeat split; try assumption;
    try (intros Hn; try reflexivity; exfalso; apply Hn; exact Hp);
    try (intros Hn; rewrite Hp in Hn; vm_compute in Hn; congruence).
Qed.

Lemma fetchData_frame_witness :
  customers (data (fst (fetchData Scenario.answers
                          (Scenario.dashboard (lit "items")
                             (Sample.composing [Sample.line (lit "a1") 3 10])))))
  = []
  /\ items (data (fst (fetchData Scenario.answers
                         (Scenario.dashboard (lit "items")
                            (Sample.composing [Sample.line (lit "a1") 3 10])))))
     = [Sample.ink].
Proof.
  destruct (fetchData_frame Scenario.answers
              (Scenario.dashboard (lit "items")
                 (Sample.composing [Sample.line (lit "a1") 3 10])))
    as [_ [_ [_ [_ [_ [_ [_ [H _]]]]]]]].
  split; [|reflexivity].
  rewrite H; [reflexivity|]. vm_compute. discriminate.
Defined.

(** X23: with a token, a list request that fails or whose answer
    cannot be decoded leaves all data as it was and ends with the
    loading flag off. *)
Theorem fetchData_failed_keeps_data (p : Page.t) :
  token (data p) <> [] ->
  let r := fetchData {| customersRoute := None; itemsRoute := None;
                        ordersRoute := None |} p in
  data (fst r) = data p /\ isLoading (fst r) = false.
Proof.
  intros Ht r. subst r. unfold fetchData.
  destruct (token (data p)) as [|c t]; [congruence|]. cbn [truthyString negb].
  repeat (destruct (strictEq _ _)); cbn; split; reflexivity.
Qed.

Lemma fetchData_failed_keeps_data_witness :
  data (fst (fetchData {| customersRoute := None; itemsRoute := None;
                          ordersRoute := None |}
               (Scenario.dashboard (lit "orders") (Sample.composing []))))
  = Sample.composing [].
Proof.
  destruct (fetchData_failed_keeps_data
              (Scenario.dashboard (lit "orders") (Sample.composing [])))
    as [H _]; [discriminate | exact H].
Defined.

(** ** What holds of the selection in every state the page can reach *)

Lemma step_selection (st st' : State) :
  step st st' ->
  orderItems st' = orderItems st
  \/ orderItems st' = []
  \/ (exists item, st' = toggleItemInOrder item st)
  \/ (exists id qty, st' = updateItemQty id qty st).
Proof.
  intros H. destruct H.
  - right; right; left. eauto.
  - right; right; right. eauto.
  - unfold createOrder. destruct (_ || _); [left; reflexivity|].
    destruct response; [right; left | left]; reflexivity.
  - left. unfold updateOrderStatus. destruct delivered; reflexivity.
  - left. unfold createItem. destruct response; reflexivity.
  - left. unfold createCustomer. destruct (_ || _); [reflexivity|].
    destruct response; reflexivity.
  - left; reflexivity.
  - left; reflexivity.
  - left; reflexivity.
  - left; reflexivity.
Qed.

Lemma quantitiesSet_toggle (item : Item.t) (st : State) :
  quantitiesSet (orderItems st) ->
  quantitiesSet (orderItems (toggleItemInOrder item st)).
Proof.
  unfold quantitiesSet. intros H. unfold toggleItemInOrder.
  destruct (find _ (orderItems st)); cbn [orderItems setOrderItems].
  - apply Forall_forall. intros l Hl. apply filter_In in Hl.
    apply (proj1 (Forall_forall _ _) H l), Hl.
  - apply Forall_app. split; [exact H|].
    constructor; [|constructor]. exists 1%float. split; reflexivity.
Qed.

Lemma quantitiesSet_update (id qty : jsstring) (st : State) :
  quantitiesSet (orderItems st) ->
  quantitiesSet (orderItems (updateItemQty id qty st)).
Proof.
  unfold quantitiesSet. intros H. rewrite updateItemQty_lines.
  apply Forall_forall. intros l Hl. apply in_map_iff in Hl.
  destruct Hl as [x [<- Hx]].
  destruct (strictEq (OrderLine.itemMongoId x) id).
  - eexists. split; [reflexivity | apply coerced_quantity_truthy].
  - apply (proj1 (Forall_forall _ _) H x Hx).
Qed.

Lemma uniqueRefs_toggle (item : Item.t) (st : State) :
  uniqueRefs (orderItems st) ->
  uniqueRefs (orderItems (toggleItemInOrder item st)).
Proof.
  intros H. unfold toggleItemInOrder.
  destruct (find _ (orderItems st)) as [x|] eqn:E;
    cbn [orderItems setOrderItems].
  - apply uniqueRefs_filter, H.
  - apply uniqueRefs_snoc; [exact H|].
    apply (proj1 (find_refersTo_none item _) E).
Qed.

Lemma selection_invariant (st : State) :
  reachable st ->
  uniqueRefs (orderItems st) /\ quantitiesSet (orderItems st).
Proof.
  induction 1 as [st H0 | st st' _ [IHu IHq] Hs].
  - rewrite H0. split; constructor.
  - destruct (step_selection st st' Hs)
      as [E|[E|[[item ->]|[id [qty ->]]]]].
    + rewrite E. split; assumption.
    + rewrite E. split; constructor.
    + split; [apply uniqueRefs_toggle | apply quantitiesSet_toggle];
        assumption.
    + split; [|apply quantitiesSet_update; assumption].
      unfold uniqueRefs. rewrite updateItemQty_keeps_ids. exact IHu.
Qed.

Lemma unique_line (lines : list OrderLine.t) (a b : OrderLine.t) :
  uniqueRefs lines -> In a lines -> In b lines ->
  OrderLine.itemMongoId a = OrderLine.itemMongoId b -> a = b.
Proof.
  unfold uniqueRefs. induction lines as [|x r IH]; intros Hu Ha Hb E;
    [destruct Ha|].
  cbn [map] in Hu. inversion Hu as [|? ? Hx Hr]; subst.
  destruct Ha as [->|Ha]; destruct Hb as [->|Hb].
  - reflexivity.
  - exfalso. apply Hx. rewrite E. apply in_map, Hb.
  - exfalso. apply Hx. rewrite <- E. apply in_map, Ha.
  - apply IH; assumption.
Qed.

(** X24: in every state reached from one with nothing selected, by any
    sequence of toggles, quantity updates, saves, status changes, logins
    and list loads, no two selected lines refer to the same item and
    every selected line carries a quantity that is neither 0 nor NaN. *)
Theorem reachable_selection_wellformed (st : State) :
  reachable st ->
  uniqueRefs (orderItems st) /\ quantitiesSet (orderItems st).
Proof. apply selection_invariant. Qed.

Lemma reachable_selection_wellformed_witness :
  uniqueRefs
    (orderItems
       (updateItemQty (lit "a1") (lit "0")
          (toggleItemInOrder Sample.pen (Sample.composing [])))).
Proof.
  apply (reachable_selection_wellformed
           (updateItemQty (lit "a1") (lit "0")
              (toggleItemInOrder Sample.pen (Sample.composing [])))).
  eapply reachable_step; [|apply step_quantity].
  eapply reachable_step; [|apply step_toggle].
  apply reachable_start. reflexivity.
Defined.

(** X25: in every reachable state a checked item has exactly one
    selected line, and its quantity field shows the quantity stored in
    that line: the fallback to 1 of the field never applies. *)
Theorem reachable_field_shows_stored (it : Item.t) (st : State) :
  reachable st ->
  checked it st = true ->
  exists l,
    In l (orderItems st)
    /\ OrderLine.itemMongoId l = Item._id it
    /\ OrderLine.quantity l = Some (shownQuantity it st)
    /\ (forall l', In l' (orderItems st) ->
                   OrderLine.itemMongoId l' = Item._id it -> l' = l).
Proof.
  intros Hr Hc. destruct (selection_invariant st Hr) as [Hu Hq].
  unfold checked in Hc. unfold shownQuantity.
  destruct (find _ (orderItems st)) as [l|] eqn:E; [|discriminate].
  apply find_some in E. destruct E as [Hl E]. apply strictEq_true_iff in E.
  exists l. split; [exact Hl|]. split; [exact E|].
  destruct (proj1 (Forall_forall _ _) Hq l Hl) as [q [Eq Tq]].
  split.
  - rewrite Eq. cbn [orDefault]. unfold orElse. rewrite Tq. reflexivity.
  - intros l' Hl' E'. apply (unique_line (orderItems st)); try assumption.
    congruence.
Qed.

Lemma reachable_field_shows_stored_witness :
  exists l,
    In l (orderItems (toggleItemInOrder Sample.pen (Sample.composing [])))
    /\ OrderLine.quantity l = Some 1%float.
Proof.
  destruct (reachable_field_shows_stored Sample.pen
              (toggleItemInOrder Sample.pen (Sample.composing [])))
    as [l [Hl [_ [Hq _]]]].
  - eapply reachable_step; [|apply step_toggle].
    apply reachable_start. reflexivity.
  - reflexivity.
  - exists l. split; [exact Hl | exact Hq].
Defined.

(** X26: every order the page submits from a reachable state names a
    customer and carries at least one line, with no item referred to
    twice and no quantity missing, zero or NaN. *)
Theorem reachable_order_wellformed (now : Z) (response : option Order.t)
        (st : State) (req : request) :
  reachable st ->
  In req (snd (createOrder now response st)) ->
  exists customerId orderId status lines,
    payload req = OrderBody customerId orderId status lines
    /\ customerId <> []
    /\ lines <> []
    /\ uniqueRefs lines
    /\ quantitiesSet lines.
Proof.
  intros Hr Hreq. destruct (selection_invariant st Hr) as [Hu Hq].
  unfold createOrder in Hreq.
  destruct (OrderForm.customerId (orderForm st)) as [|c cs] eqn:Ec;
    [destruct Hreq|].
  destruct (orderItems st) as [|l ls] eqn:El; [destruct Hreq|].
  cbn [truthyString negb orb List.length Nat.eqb] in Hreq.
  assert (E : payload req =
              OrderBody (c :: cs)
                (generateCode (lit "ORD_") (OrderForm.orderId (orderForm st)) now)
                (OrderForm.status (orderForm st)) (l :: ls)).
  { destruct response; destruct Hreq as [<-|[]]; reflexivity. }
  eexists _, _, _, _. split; [exact E|].
  repeat split; try discriminate; assumption.
Qed.

Lemma reachable_order_wellformed_witness :
  exists customerId orderId status lines,
    map payload
        (snd (createOrder 1700000000000 None
                (toggleItemInOrder Sample.pen (Sample.composing []))))
    = [OrderBody customerId orderId status lines]
    /\ uniqueRefs lines.
Proof.
  destruct (reachable_order_wellformed 1700000000000 None
              (toggleItemInOrder Sample.pen (Sample.composing []))
              {| method := lit "POST"; url := lit "/api/orders";
                 bearer := lit "t";
                 payload := OrderBody (lit "c1") (lit "ORD_1700000000000")
                                      (lit "Pending")
                                      [Sample.line (lit "a1") 1 10] |})
    as [c [o [s [ls [E [_ [_ [U _]]]]]]]].
  - eapply reachable_step; [|apply step_toggle].
    apply reachable_start. reflexivity.
  - left. reflexivity.
  - exists c, o, s, ls. split; [|exact U].
    cbn [payload] in E. rewrite <- E. reflexivity.
Defined.

(** ** The printed form of the price total *)

Lemma decimalDigits_shape (n : Z) :
  0 <= n ->
  decimalDigits n <> [] /\ Forall isDigit (decimalDigits n).
Proof.
  intros Hn. unfold decimalDigits. split.
  - destruct (digitsLoop_head (S (Z.to_nat (Z.log2 n))) n [])
      as [c [r [E _]]]; [left; discriminate | intros c [] |].
    rewrite E. discriminate.
  - destruct (digitsLoop_value (S (Z.to_nat (Z.log2 n))) n [])
      as [ds [Hds [Hall _]]]; [discriminate| |].
    + split; [exact Hn|].
      rewrite Nat2Z.inj_succ, Z2Nat.id by apply Z.log2_nonneg.
      destruct (Z.eq_dec n 0) as [->|Hz]; [reflexivity|].
      apply Z.lt_le_trans with (2 ^ Z.succ (Z.log2 n)).
      * apply Z.log2_spec. lia.
      * apply Z.pow_le_mono_l. lia.
    + rewrite Hds, app_nil_r. apply Forall_forall. intros c Hc.
      apply in_map_iff in Hc. destruct Hc as [d [<- Hd]].
      apply (proj1 (Forall_forall _ _) Hall) in Hd.
      unfold isDigit. rewrite Z2N.id by lia. lia.
Qed.

Lemma mathInt_leading_zeros (k : nat) (ds : list Z) :
  mathInt 10 (repeat 0 k ++ ds) = mathInt 10 ds.
Proof.
  unfold mathInt. rewrite fold_left_app. f_equal.
  induction k as [|k IH]; [reflexivity | exact IH].
Qed.

Lemma digitsPrefix_leading_zeros (k : nat) (s : jsstring) :
  digitsPrefix 10 (repeat 48%N k ++ s) = repeat 0 k ++ digitsPrefix 10 s.
Proof.
  induction k as [|k IH]; [reflexivity|].
  cbn [repeat app digitsPrefix].
  change (radixDigit 10 48%N) with (Some 0). rewrite IH. reflexivity.
Qed.

Lemma placePoint_two (n : Z) :
  0 <= n ->
  exists whole cents,
    placePoint 2 n = whole ++ lit "." ++ cents
    /\ whole <> []
    /\ List.length cents = 2%nat
    /\ Forall isDigit whole
    /\ Forall isDigit cents
    /\ mathInt 10 (digitsPrefix 10 (whole ++ cents)) = n.
Proof.
  intros Hn. destruct (decimalDigits_shape n Hn) as [Hne Hd].
  pose proof (decimalDigits_value n Hn) as Hv.
  unfold placePoint. cbn [Z.eqb].
  set (m := decimalDigits n) in *. clearbody m.
  set (m' := if Z.of_nat (List.length m) <=? 2
             then repeat 48%N (Z.to_nat (2 + 1 - Z.of_nat (List.length m))) ++ m
             else m).
  assert (Hlen : (3 <= List.length m')%nat).
  { subst m'. destruct (Z.leb_spec (Z.of_nat (List.length m)) 2).
    - rewrite length_app, repeat_length.
      unfold jsstring, code_unit in *. lia.
    - unfold jsstring, code_unit in *. lia. }
  assert (Hd' : Forall isDigit m').
  { subst m'. destruct (_ <=? _); [|exact Hd].
    apply Forall_app. split; [|exact Hd].
    apply Forall_forall. intros c Hc. apply repeat_spec in Hc. subst c.
    unfold isDigit. cbn. lia. }
  assert (Hv' : mathInt 10 (digitsPrefix 10 m') = n).
  { subst m'. destruct (_ <=? _); [|exact Hv].
    rewrite digitsPrefix_leading_zeros, mathInt_leading_zeros. exact Hv. }
  set (k := Z.to_nat (Z.of_nat (List.length m') - 2)).
  assert (Hk : k = (List.length m' - 2)%nat) by (subst k; lia).
  rewrite <- (firstn_skipn k m') in Hd'. apply Forall_app in Hd'.
  exists (firstn k m'), (skipn k m'). split; [reflexivity|].
  split; [|split; [|split; [exact (proj1 Hd')|split; [exact (proj2 Hd')|]]]].
  - intros E. apply (f_equal (@List.length _)) in E.
    rewrite length_firstn in E. cbn in E. lia.
  - rewrite length_skipn. lia.
  - rewrite firstn_skipn. exact Hv'.
Qed.

Lemma nearestScaled_nonneg (f : Z) (m : positive) (e : Z) :
  0 <= f -> 0 <= nearestScaled f (mathValue m e).
Proof.
  intros Hf. unfold mathValue, nearestScaled.
  destruct (0 <=? e) eqn:E.
  - apply Z.leb_le in E. apply Z.div_pos; [|lia].
    pose proof (Z.pow_nonneg 2 e ltac:(lia)).
    pose proof (Z.pow_nonneg 10 f ltac:(lia)). nia.
  - apply Z.leb_gt in E.
    pose proof (Z.pow_pos_nonneg 2 (- e) ltac:(lia) ltac:(lia)).
    pose proof (Z.pow_nonneg 10 f ltac:(lia)).
    apply Z.div_pos; nia.
Qed.

Lemma mathValue_den_pos (m : positive) (e : Z) : 0 < snd (mathValue m e).
Proof.
  unfold mathValue. destruct (0 <=? e) eqn:E; cbn [snd]; [lia|].
  apply Z.leb_gt in E. apply Z.pow_pos_nonneg; lia.
Qed.

(** X27: the price total of a card is always printed, in the form its
    value decides.  A sum that is not a number prints [NaN], an infinite
    one [Infinity] or [-Infinity], a zero one [0.00]; a finite sum of
    magnitude at least 10^21 goes to the exponential printer, after its
    sign; any other prints a minus sign when negative, at least one
    digit, a point and exactly two digits, and these digits read as an
    integer are the magnitude times 100 rounded to the nearest integer,
    the larger one on a tie. *)
Theorem totalPrice_format (ets : number -> jsstring)
        (lines : list OrderLine.t) :
  let x := Spec.totalAmount lines in
  exists s,
    totalPrice ets (Some lines) = Normal (Some s)
    /\ match Prim2SF x with
       | S754_nan => s = lit "NaN"
       | S754_infinity negative =>
           s = if negative then lit "-Infinity" else lit "Infinity"
       | S754_zero _ => s = lit "0.00"
       | S754_finite negative m e =>
           let sign := if negative then lit "-" else [] in
           let num := fst (mathValue m e) in
           let den := snd (mathValue m e) in
           if 10 ^ 21 * den <=? num
           then s = sign ++ ets (abs x)
           else
             exists whole cents,
               s = sign ++ whole ++ lit "." ++ cents
               /\ whole <> []
               /\ List.length cents = 2%nat
               /\ Forall isDigit whole
               /\ Forall isDigit cents
               /\ (let n := mathInt 10 (digitsPrefix 10 (whole ++ cents)) in
                   den * (2 * n - 1) <= 2 * num * 10 ^ 2 < den * (2 * n + 1))
       end.
Proof.
  intros x. rewrite totalPrice_sum. fold x. clearbody x.
  unfold toFixed. cbn [Z.ltb Z.compare Pos.compare Pos.compare_cont orb].
  destruct (Prim2SF x) as [s|s| |s m e]; cbn [bind].
  - eexists. split; reflexivity.
  - eexists. split; reflexivity.
  - eexists. split; reflexivity.
  - pose proof (nearestScaled_nonneg 2 m e ltac:(lia)) as Hn.
    pose proof (mathValue_den_pos m e) as Hden.
    destruct (mathValue m e) as [num den]. cbn [fst snd] in *.
    destruct (10 ^ 21 * den <=? num); cbn [bind];
      (eexists; split; [reflexivity|]); [reflexivity|].
    destruct (placePoint_two _ Hn) as [w [c [E [H1 [H2 [H3 [H4 H5]]]]]]].
    exists w, c. rewrite E. repeat split; try assumption.
    + rewrite H5. apply (nearestScaled_nearest 2 num den Hden).
    + rewrite H5. apply (nearestScaled_nearest 2 num den Hden).
Qed.

(** ** Labels on the order cards *)

Lemma find_first_match {A} (p : A -> bool) (pre post : list A) (c : A) :
  (forall x, In x pre -> p x = false) -> p c = true ->
  find p (pre ++ c :: post) = Some c.
Proof.
  intros Hpre Hc. induction pre as [|x r IH]; cbn [app find].
  - rewrite Hc. reflexivity.
  - rewrite (Hpre x (or_introl eq_refl)). apply IH.
    intros y Hy. apply Hpre. right; exact Hy.
Qed.

Lemma find_no_match {A} (p : A -> bool) (l : list A) :
  (forall x, In x l -> p x = false) -> find p l = None.
Proof.
  induction l as [|x r IH]; intros H; cbn [find]; [reflexivity|].
  rewrite (H x (or_introl eq_refl)). apply IH.
  intros y Hy. apply H. right; exact Hy.
Qed.

(** X28: the labels on a card come from the first match.  The customer
    label of an order is the name of the first listed customer whose
    [_id] is the order's customer reference, when that name is not empty;
    it is the reference itself when that name is empty or when no listed
    customer has that [_id].  The item label of a line is read in the
    same way from the catalog.  So a label is empty only when the
    reference is. *)
Theorem labels_show_first_match (st : State) :
  (forall o pre c post,
     customers st = pre ++ c :: post ->
     (forall c', In c' pre -> Customer._id c' <> Order.customerId o) ->
     Customer._id c = Order.customerId o ->
     (Customer.name c <> [] -> customerLabel o st = Customer.name c)
     /\ (Customer.name c = [] -> customerLabel o st = Order.customerId o))
  /\ (forall o,
        (forall c, In c (customers st) ->
                   Customer._id c <> Order.customerId o) ->
        customerLabel o st = Order.customerId o)
  /\ (forall l pre i post,
        items st = pre ++ i :: post ->
        (forall i', In i' pre -> Item._id i' <> OrderLine.itemMongoId l) ->
        Item._id i = OrderLine.itemMongoId l ->
        (Item.name i <> [] -> itemLabel l st = Item.name i)
        /\ (Item.name i = [] -> itemLabel l st = OrderLine.itemMongoId l))
  /\ (forall l,
        (forall i, In i (items st) ->
                   Item._id i <> OrderLine.itemMongoId l) ->
        itemLabel l st = OrderLine.itemMongoId l)
  /\ (forall o, Order.customerId o <> [] -> customerLabel o st <> [])
  /\ (forall l, OrderLine.itemMongoId l <> [] -> itemLabel l st <> []).
Proof.
  split; [|split; [|split; [|split; [|split]]]].
  - intros o pre c post E Hpre Hc. unfold customerLabel.
    rewrite E, (find_first_match _ pre post c).
    + destruct (Customer.name c); cbn; split; congruence.
    + intros x Hx. apply strictEq_false_iff, Hpre, Hx.
    + apply strictEq_true_iff, Hc.
  - intros o H. unfold customerLabel. rewrite find_no_match; [reflexivity|].
    intros x Hx. apply strictEq_false_iff, H, Hx.
  - intros l pre i post E Hpre Hi. unfold itemLabel.
    rewrite E, (find_first_match _ pre post i).
    + destruct (Item.name i); cbn; split; congruence.
    + intros x Hx. apply strictEq_false_iff, Hpre, Hx.
    + apply strictEq_true_iff, Hi.
  - intros l H. unfold itemLabel. rewrite find_no_match; [reflexivity|].
    intros x Hx. apply strictEq_false_iff, H, Hx.
  - intros o Ho. unfold customerLabel.
    destruct (find _ (customers st)) as [c|]; [|exact Ho].
    destruct (Customer.name c) eqn:E; cbn; [exact Ho | discriminate].
  - intros l Hl. unfold itemLabel.
    destruct (find _ (items st)) as [i|]; [|exact Hl].
    destruct (Item.name i) eqn:E; cbn; [exact Hl | discriminate].
Qed.

Lemma labels_show_first_match_witness :
  itemLabel (Sample.line (lit "b2") 2 5.5) (Sample.composing []) = lit "Ink"
  /\ itemLabel (Sample.line (lit "zz") 2 10) (Sample.composing [])
     = lit "zz"
  /\ customerLabel Sample.order1 (Sample.composing []) = lit "c1".
Proof.
  destruct (labels_show_first_match (Sample.composing []))
    as [_ [Hc [Hi [Hn _]]]].
  split; [|split].
  - destruct (Hi (Sample.line (lit "b2") 2 5.5) [Sample.pen] Sample.ink [])
      as [H _].
    + reflexivity.
    + intros i' [<-|[]]. vm_compute. discriminate.
    + reflexivity.
    + apply H. discriminate.
  - apply Hn. intros i [<-|[<-|[]]]; vm_compute; discriminate.
  - apply Hc. intros c [].
Defined.

(** ** Raw quantities that do not parse *)

(** X30: a raw quantity that does not parse as an integer, or parses
    to zero, is stored as 1: after [updateItemQty] every line that refers
    to the [id] carries the quantity 1, with its reference and price
    kept, at the position it had. *)
Theorem updateItemQty_unparsable_stores_one (id qty : jsstring) (st : State)
        (n : nat) (l : OrderLine.t) :
  ToBoolean (parseInt qty) = false ->
  nth_error (orderItems st) n = Some l ->
  OrderLine.itemMongoId l = id ->
  nth_error (orderItems (updateItemQty id qty st)) n
  = Some {| OrderLine.itemMongoId := OrderLine.itemMongoId l;
            OrderLine.quantity := Some 1%float;
            OrderLine.price := OrderLine.price l |}.
Proof.
  intros Hq Hn Hid. rewrite updateItemQty_lines, nth_error_map, Hn.
  cbn [option_map]. apply strictEq_true_iff in Hid. rewrite Hid.
  unfold orElse. rewrite Hq. reflexivity.
Qed.

Lemma updateItemQty_unparsable_stores_one_witness :
  nth_error
    (orderItems
       (updateItemQty (lit "b2") (lit "abc")
          (Sample.composing [Sample.line (lit "a1") 3 10;
                             Sample.line (lit "b2") 4 5.5]))) 1
  = Some (Sample.line (lit "b2") 1 5.5)
  /\ nth_error
       (orderItems
          (updateItemQty (lit "a1") (lit "0")
             (Sample.composing [Sample.line (lit "a1") 3 10;
                                Sample.line (lit "b2") 4 5.5]))) 0
     = Some (Sample.line (lit "a1") 1 10).
Proof.
  split.
  - apply (updateItemQty_unparsable_stores_one (lit "b2") (lit "abc")
             (Sample.composing [Sample.line (lit "a1") 3 10;
                                Sample.line (lit "b2") 4 5.5])
             1 (Sample.line (lit "b2") 4 5.5)); reflexivity.
  - apply (updateItemQty_unparsable_stores_one (lit "a1") (lit "0")
             (Sample.composing [Sample.line (lit "a1") 3 10;
                                Sample.line (lit "b2") 4 5.5])
             0 (Sample.line (lit "a1") 3 10)); reflexivity.
Defined.

Lemma updateItemQty_nth_witness :
  exists l',
    nth_error
      (orderItems
         (updateItemQty (lit "b2") (lit "7")
            (Sample.composing [Sample.line (lit "a1") 3 10;
                               Sample.line (lit "b2") 4 5.5]))) 0
    = Some l'
    /\ l' = Sample.line (lit "a1") 3 10.
Proof.
  destruct (updateItemQty_nth (lit "b2") (lit "7")
              (Sample.composing [Sample.line (lit "a1") 3 10;
                                 Sample.line (lit "b2") 4 5.5])
              0 (Sample.line (lit "a1") 3 10) eq_refl)
    as [l' [E [_ H]]].
  exists l'. split; [exact E|]. apply H. vm_compute. discriminate.
Defined.
